(** * vcf_parser: genotype decoder, allele splitter and stream driver

    A shallow embedding of [vcf_parser/genotype.py],
    [vcf_parser/utils/split_variants.py] and [VCFParser.__iter__] of
    [vcf_parser/parser.py].

    Python strings are [string]s whose characters are read as the code
    points 0..255.  A statement that can raise returns a [result]; a
    generator is run to its end and gives the records it yielded together
    with the exception that ended it, if any. *)

From Stdlib Require Import ZArith String Ascii List Bool Lia.
From stdpp Require Import gmap strings.

Open Scope string_scope.
Open Scope Z_scope.

(** ** Python values and exceptions *)

Module Py.

(** The exception classes the modelled statements can raise. *)
Inductive exn :=
| NameError (name : string)
| KeyError (key : string)
| IndexError
| ValueError
| TypeError.

Inductive result (A : Type) :=
| Ok (a : A)
| Raise (e : exn).
Arguments Ok {A} a.
Arguments Raise {A} e.

Definition bind {A B} (r : result A) (k : A -> result B) : result B :=
  match r with
  | Ok a => k a
  | Raise e => Raise e
  end.

Definition is_ok {A} (r : result A) : bool :=
  match r with Ok _ => true | Raise _ => false end.

(** Reading a name that neither the function nor its module binds and that
    is no builtin: [NameError]. *)
Definition unbound {A} (name : string) : result A := Raise (NameError name).

(** [try: r except ValueError: h] *)
Definition except_ValueError {A} (r : result A) (h : result A) : result A :=
  match r with
  | Raise ValueError => h
  | _ => r
  end.

(** [try: r except IndexError: h] *)
Definition except_IndexError {A} (r : result A) (h : result A) : result A :=
  match r with
  | Raise IndexError => h
  | _ => r
  end.

(** *** Characters *)

Definition code (c : ascii) : N := N_of_ascii c.

(** [c.isdigit()] for one character: the decimal digits and the
    superscripts U+00B2, U+00B3 and U+00B9. *)
Definition char_isdigit (c : ascii) : bool :=
  let n := code c in
  ((48 <=? n) && (n <=? 57) || (n =? 178) || (n =? 179) || (n =? 185))%N.

(** A decimal digit in the sense of [int()]  and [float()]. *)
Definition digit_value (c : ascii) : option Z :=
  let n := code c in
  if ((48 <=? n) && (n <=? 57))%N then Some (Z.of_N n - 48) else None.

(** Whitespace in the sense of [str.rstrip()] and [str.isspace()]. *)
Definition char_isspace (c : ascii) : bool :=
  let n := code c in
  ((9 <=? n) && (n <=? 13) || (28 <=? n) && (n <=? 32)
   || (n =? 133) || (n =? 160))%N.

(** The whitespace [int()] and [float()] strip around a literal: the
    separators U+001C..U+001F are not part of it. *)
Definition char_isspace_num (c : ascii) : bool :=
  let n := code c in
  ((9 <=? n) && (n <=? 13) || (n =? 32) || (n =? 133) || (n =? 160))%N.

Definition lower (c : ascii) : ascii :=
  let n := code c in
  if ((65 <=? n) && (n <=? 90))%N then ascii_of_N (n + 32) else c.

(** *** Strings *)

(** [len(s)] *)
Definition len (s : string) : Z := Z.of_nat (String.length s).

(** [c in s] for a one-character [c]. *)
Fixpoint contains (c : ascii) (s : string) : bool :=
  match s with
  | EmptyString => false
  | String d s' => if Ascii.eqb c d then true else contains c s'
  end.

(** [s[i]] for a non-negative literal index [i]. *)
Fixpoint index (s : string) (i : nat) : result string :=
  match s, i with
  | EmptyString, _ => Raise IndexError
  | String c _, O => Ok (String c EmptyString)
  | String _ s', S j => index s' j
  end.

(** [s[-1]] *)
Fixpoint last (s : string) : result string :=
  match s with
  | EmptyString => Raise IndexError
  | String c EmptyString => Ok (String c EmptyString)
  | String _ s' => last s'
  end.

(** [s.isdigit()]: no character fails the test and there is at least one. *)
Fixpoint all_digits (s : string) : bool :=
  match s with
  | EmptyString => true
  | String c s' => char_isdigit c && all_digits s'
  end.

Definition isdigit (s : string) : bool :=
  match s with
  | EmptyString => false
  | _ => all_digits s
  end.

(** [s.split(sep)] for a one-character separator: never the empty list. *)
Fixpoint split (sep : ascii) (s : string) : list string :=
  match s with
  | EmptyString => [EmptyString]
  | String c s' =>
      if Ascii.eqb c sep then EmptyString :: split sep s'
      else match split sep s' with
           | hd :: tl => String c hd :: tl
           | [] => [String c EmptyString]
           end
  end.

(** [sep.join(l)] *)
Fixpoint join (sep : string) (l : list string) : string :=
  match l with
  | [] => EmptyString
  | [x] => x
  | x :: rest => x ++ sep ++ join sep rest
  end.

(** [l[i]] on a list. *)
Definition item {A} (l : list A) (i : nat) : result A :=
  match nth_error l i with
  | Some x => Ok x
  | None => Raise IndexError
  end.

Fixpoint lstrip_with (sp : ascii -> bool) (l : list ascii) : list ascii :=
  match l with
  | c :: l' => if sp c then lstrip_with sp l' else l
  | [] => []
  end.

Definition rstrip_with (sp : ascii -> bool) (l : list ascii) : list ascii :=
  rev (lstrip_with sp (rev l)).

(** [s.rstrip()] *)
Definition rstrip (s : string) : string :=
  string_of_list_ascii (rstrip_with char_isspace (list_ascii_of_string s)).

(** *** [int(s)] for a string

    Surrounding whitespace, an optional sign, then decimal digits in which
    single underscores may stand between two digits (Python 3.6 and later).
    A literal of more than 4300 digits is refused with [ValueError], the
    default of [sys.int_max_str_digits] in CPython 3.11 and later. *)

(** [digits acc prev l]: [prev] tells whether the previous character was a
    digit, as an underscore needs one on each side. *)
Fixpoint digits (acc : Z) (prev : bool) (l : list ascii) : option Z :=
  match l with
  | [] => if prev then Some acc else None
  | c :: l' =>
      match digit_value c with
      | Some d => digits (10 * acc + d) true l'
      | None =>
          if Ascii.eqb c "_" && prev then digits acc false l' else None
      end
  end.

Definition signed (l : list ascii) : bool * list ascii :=
  match l with
  | c :: l' =>
      if Ascii.eqb c "-" then (true, l')
      else if Ascii.eqb c "+" then (false, l')
      else (false, l)
  | [] => (false, [])
  end.

Definition strip_num (s : string) : list ascii :=
  rstrip_with char_isspace_num
    (lstrip_with char_isspace_num (list_ascii_of_string s)).

(** The number of digits of a literal; the underscores do not count, the
    leading zeros do. *)
Fixpoint count_digits (l : list ascii) : Z :=
  match l with
  | [] => 0
  | c :: l' =>
      match digit_value c with
      | Some _ => 1 + count_digits l'
      | None => count_digits l'
      end
  end.

Definition max_str_digits : Z := 4300.

Definition int_opt (s : string) : option Z :=
  let (neg, body) := signed (strip_num s) in
  match digits 0 false body with
  | Some n =>
      if max_str_digits <? count_digits body then None
      else Some (if neg then - n else n)
  | None => None
  end.

Definition int (s : string) : result Z :=
  match int_opt s with
  | Some n => Ok n
  | None => Raise ValueError
  end.

(** *** [float(s)] for a string

    Surrounding whitespace, an optional sign, then [inf], [infinity] or
    [nan] in any case, or a decimal literal: digits with an optional
    fraction and an optional exponent, single underscores allowed between
    two digits.  The value is the binary64 number nearest to the literal,
    ties to even; a literal beyond the range gives an infinity, one below
    it a zero. *)

(** A float.  [FDecimal s m e] is the finite number [m * 10^e], negative
    when [s] is set, written exactly: every binary64 number is a decimal.
    [m] is [0], with [e = 0], or no multiple of 10, so a number has one
    writing; the two zeros differ by [s]. *)
Inductive pyfloat :=
| FNan
| FInf (negative : bool)
| FDecimal (negative : bool) (mantissa : Z) (exponent : Z).

(** The integer nearest to [n / d], for [0 <= n] and [0 < d]; ties go to
    the even one. *)
Definition round_half_even (n d : Z) : Z :=
  let q := n / d in
  match 2 * (n mod d) ?= d with
  | Lt => q
  | Gt => q + 1
  | Eq => if Z.even q then q else q + 1
  end.

(** The exponent [e] of the last binary place of [n / d], for [0 < n] and
    [0 < d]: [2^52 <= n / d / 2^e < 2^53], and [e] is -1074 for the numbers
    too small for that (the subnormal ones). *)
Definition ulp_exponent (n d : Z) : Z :=
  let l := Z.log2 n - Z.log2 d in
  let above := if 0 <=? l then d * 2 ^ l <=? n else d <=? n * 2 ^ (- l) in
  Z.max (if above then l - 52 else l - 53) (-1074).

(** The binary64 number nearest to [n / d], for [0 < n] and [0 < d], as
    [(m, e)] for [m * 2^e]; [None] when it is beyond the largest finite
    one. *)
Definition binary64 (n d : Z) : option (Z * Z) :=
  let e := ulp_exponent n d in
  let m := if 0 <=? e then round_half_even n (d * 2 ^ e)
           else round_half_even (n * 2 ^ (- e)) d in
  if (0 <=? e) && (2 ^ 1024 <=? m * 2 ^ e) then None else Some (m, e).

(** [m * 10^e] without the factors 10 of [m]. *)
Fixpoint strip_tens (fuel : nat) (m e : Z) : Z * Z :=
  match fuel with
  | O => (m, e)
  | S fuel' =>
      if m mod 10 =? 0 then strip_tens fuel' (m / 10) (e + 1) else (m, e)
  end.

(** [m * 2^e] in decimal, for [0 <= m <= 2^53]: [m * 2^e] times [10^0]
    when [0 <= e], and [m * 5^(-e)] times [10^e] otherwise; at most 53
    factors 10 are to be taken out. *)
Definition exact_decimal (m e : Z) : Z * Z :=
  if m =? 0 then (0, 0)
  else if 0 <=? e then strip_tens 53 (m * 2 ^ e) 0
  else strip_tens 53 (m * 5 ^ (- e)) e.

(** The float of the literal [m * 10^e], for [0 <= m].  The exponent is
    first brought between [-(log2 m + 401)] and [400]: beyond either bound
    the result is the same, an infinity or a zero. *)
Definition nearest (neg : bool) (m e : Z) : pyfloat :=
  if m =? 0 then FDecimal neg 0 0
  else
    let e := Z.max (Z.min e 400) (- (Z.log2 m + 401)) in
    match (if 0 <=? e then binary64 (m * 10 ^ e) 1
           else binary64 m (10 ^ (- e))) with
    | Some (b, x) => let (dm, de) := exact_decimal b x in FDecimal neg dm de
    | None => FInf neg
    end.

(** [digitrun acc n l] reads a run of digits from the front of [l]: [n]
    counts the digits read so far, the rest of [l] is returned. *)
Fixpoint digitrun (acc : Z) (n : nat) (l : list ascii) : Z * nat * list ascii :=
  match l with
  | c :: l' =>
      match digit_value c with
      | Some d => digitrun (10 * acc + d) (S n) l'
      | None =>
          if Ascii.eqb c "_" && negb (Nat.eqb n 0) then
            match l' with
            | c2 :: l'' =>
                match digit_value c2 with
                | Some d => digitrun (10 * acc + d) (S n) l''
                | None => (acc, n, l)
                end
            | [] => (acc, n, l)
            end
          else (acc, n, l)
      end
  | [] => (acc, n, l)
  end.

Definition exponent_part (l : list ascii) : option Z :=
  match l with
  | [] => Some 0
  | c :: l' =>
      if Ascii.eqb (lower c) "e" then
        let (neg, body) := signed l' in
        match digitrun 0 0 body with
        | (e, S _, []) => Some (if neg then - e else e)
        | _ => None
        end
      else None
  end.

Definition decimal (neg : bool) (l : list ascii) : option pyfloat :=
  let '(ip, ni, r1) := digitrun 0 0 l in
  let '(fp, nf, r2) :=
    match r1 with
    | c :: r => if Ascii.eqb c "." then digitrun 0 0 r else (0, 0%nat, r1)
    | [] => (0, 0%nat, r1)
    end in
  match ni, nf with
  | O, O => None
  | _, _ =>
      match exponent_part r2 with
      | Some e =>
          Some (nearest neg (ip * 10 ^ Z.of_nat nf + fp) (e - Z.of_nat nf))
      | None => None
      end
  end.

Definition float_opt (s : string) : option pyfloat :=
  let (neg, body) := signed (strip_num s) in
  let word := string_of_list_ascii (map lower body) in
  if String.eqb word "inf" || String.eqb word "infinity" then Some (FInf neg)
  else if String.eqb word "nan" then Some FNan
  else decimal neg body.

Definition float (s : string) : result pyfloat :=
  match float_opt s with
  | Some x => Ok x
  | None => Raise ValueError
  end.

(** [s.startswith(prefix)] *)
Fixpoint startswith (prefix s : string) : bool :=
  match prefix, s with
  | EmptyString, _ => true
  | String c prefix', String d s' => Ascii.eqb c d && startswith prefix' s'
  | String _ _, EmptyString => false
  end.

(** [f.readline()] on the lines a stream still holds: the next line, or the
    empty string at the end of the stream. *)
Definition readline (stream : list string) : string * list string :=
  match stream with
  | [] => (EmptyString, [])
  | line :: rest => (line, rest)
  end.

End Py.

Notation "x <- e ;; k" := (Py.bind e (fun x => k))
  (at level 100, e at next level, right associativity).

(** [[f(x) for x in l]]: the elements are converted from left to right and
    the first exception ends the comprehension. *)
Fixpoint comprehension {A B} (f : A -> Py.result B) (l : list A)
  : Py.result (list B) :=
  match l with
  | [] => Py.Ok []
  | x :: l' => y <- f x ;; ys <- comprehension f l' ;; Py.Ok (y :: ys)
  end.

(** ** [os.path.splitext], as [posixpath] defines it *)

Module OsPath.

(** [p.rfind(c)] on the characters of [p], counted from [i]: the index of
    the last [c], or [found] when there is none. *)
Fixpoint rfind_from (c : ascii) (l : list ascii) (i : Z) (found : Z) : Z :=
  match l with
  | [] => found
  | d :: l' => rfind_from c l' (i + 1) (if Ascii.eqb c d then i else found)
  end.

Definition rfind (c : ascii) (l : list ascii) : Z := rfind_from c l 0 (-1).

(** The extension starts at the last dot of the path when that dot comes
    after the last [/] and after a character of the file name that is no
    dot; otherwise there is none. *)
Definition splitext (p : string) : string * string :=
  let l := list_ascii_of_string p in
  let sepIndex := rfind "/" l in
  let dotIndex := rfind "." l in
  let name := firstn (Z.to_nat (dotIndex - (sepIndex + 1)))
                (skipn (Z.to_nat (sepIndex + 1)) l) in
  if (sepIndex <? dotIndex)
     && existsb (fun c => negb (Ascii.eqb c ".")) name
  then (string_of_list_ascii (firstn (Z.to_nat dotIndex) l),
        string_of_list_ascii (skipn (Z.to_nat dotIndex) l))
  else (p, EmptyString).

End OsPath.

(** ** genotype.py: class [Genotype] *)

Module Genotype.

(** [ref_depth] and [alt_depth] hold a one-character string (l.81-82) until
    an [int] is assigned to them (l.87, l.89). *)
Inductive depth :=
| Raw (token : string)
| Count (n : Z).

(** The attributes of an instance.  [depth_of_coverage] and
    [genotype_quality] are [None] when the attribute was never assigned
    (l.90-97). *)
Record t := mk {
  heterozygote : bool;
  homo_alt : bool;
  homo_ref : bool;
  has_variant : bool;
  genotyped : bool;
  phased : bool;
  allele_1 : string;
  allele_2 : string;
  genotype : string;
  ref_depth : depth;
  alt_depth : depth;
  depth_of_coverage : option Z;
  genotype_quality : option Py.pyfloat;
  phred_likelihoods : list Z
}.

(** The zygosity flags, in the order (heterozygote, homo_alt, homo_ref,
    has_variant, genotyped), as l.51-55 and l.69-79 set them. *)
Definition zygosity (allele_1 allele_2 genotype : string)
  : bool * bool * bool * bool * bool :=
  if negb (String.eqb genotype "./.") then
    if String.eqb genotype "0/0" then (false, false, true, false, true)
    else if String.eqb allele_1 allele_2 then (false, true, false, true, true)
    else (true, false, false, true, true)
  else (false, false, false, false, false).

(** l.60-65: the two alleles of the token [GT]. *)
Definition alleles (GT : string) : Py.result (string * string) :=
  if Py.len GT <? 3 then Py.Ok (GT, ".")
  else a1 <- Py.index GT 0 ;; a2 <- Py.last GT ;; Py.Ok (a1, a2).

(** l.81-89: the reference and the alternative depth of the token [AD]. *)
Definition depths (AD : string) : Py.result (depth * depth) :=
  r0 <- Py.index AD 0 ;;
  a0 <- Py.last AD ;;
  if Py.len AD >? 2 then
    ref <- (c <- Py.index AD 0 ;;
            if Py.isdigit c then
              x <- Py.item (Py.split "," AD) 0 ;; n <- Py.int x ;;
              Py.Ok (Count n)
            else Py.Ok (Raw r0)) ;;
    alt <- (c <- Py.index AD 2 ;;
            if Py.isdigit c then
              x <- Py.item (Py.split "," AD) 1 ;; n <- Py.int x ;;
              Py.Ok (Count n)
            else Py.Ok (Raw a0)) ;;
    Py.Ok (ref, alt)
  else Py.Ok (Raw r0, Raw a0).

(** [try: self.x = conv(token) except ValueError: pass] (l.90-97): the
    attribute is assigned only when the conversion succeeds. *)
Definition try_assign {A} (conv : string -> Py.result A) (token : string)
  : Py.result (option A) :=
  Py.except_ValueError (x <- conv token ;; Py.Ok (Some x)) (Py.Ok None).

(** l.98-100: [PL] is [None] by default; [if PL:] also skips the empty
    string. *)
Definition likelihoods (PL : option string) : Py.result (list Z) :=
  match PL with
  | None => Py.Ok []
  | Some EmptyString => Py.Ok []
  | Some pl => comprehension Py.int (Py.split "," pl)
  end.

(** [Genotype(GT, AD, DP, GQ, PL)]: the instance, or the exception that
    leaves [__init__]. *)
Definition __init__ (GT AD DP GQ : string) (PL : option string)
  : Py.result t :=
  let phased := Py.contains "|" GT in
  a <- alleles GT ;;
  let '(allele_1, allele_2) := a in
  let genotype := allele_1 ++ "/" ++ allele_2 in
  let '(heterozygote, homo_alt, homo_ref, has_variant, genotyped) :=
    zygosity allele_1 allele_2 genotype in
  d <- depths AD ;;
  let '(ref_depth, alt_depth) := d in
  depth_of_coverage <- try_assign Py.int DP ;;
  genotype_quality <- try_assign Py.float GQ ;;
  phred_likelihoods <- likelihoods PL ;;
  Py.Ok (mk heterozygote homo_alt homo_ref has_variant genotyped phased
            allele_1 allele_2 genotype ref_depth alt_depth
            depth_of_coverage genotype_quality phred_likelihoods).

(** The defaults of the signature (l.48). *)
Definition default_GT : string := "./.".
Definition default_AD : string := ".,.".
Definition default_DP : string := "0".
Definition default_GQ : string := "0".
Definition default_PL : option string := None.

(** [str(self)] (l.102-104). *)
Definition __str__ (self : t) : string :=
  allele_1 self ++ "/" ++ allele_2 self.

End Genotype.

(** ** The records the splitter and the driver exchange *)

(** Modelled from the spec: the header schema.  Class [HeaderParser] is not
    among the sources; the splitter reads one attribute of it,
    [metadata.extra_info[key]['Number']] (split_variants.py l.62), the
    declarations of the header keyed by annotation key, each a mapping from
    a field name such as [Number] to its text. *)
Record HeaderParser := {
  extra_info : gmap string (gmap string string)
}.

(** An insertion-ordered mapping from strings (a [dict] iterated over, an
    [OrderedDict]). *)
Definition odict (V : Type) : Type := list (string * V).

Definition odict_keys {V} (d : odict V) : list string := map fst d.

(** [d[k]] *)
Fixpoint odict_get {V} (d : odict V) (k : string) : Py.result V :=
  match d with
  | [] => Py.Raise (Py.KeyError k)
  | (k', v) :: d' => if String.eqb k k' then Py.Ok v else odict_get d' k
  end.

(** [d[k] = v]: a key already present keeps its place. *)
Fixpoint odict_set {V} (d : odict V) (k : string) (v : V) : odict V :=
  match d with
  | [] => [(k, v)]
  | (k', v') :: d' =>
      if String.eqb k k' then (k, v) :: d' else (k', v') :: odict_set d' k v
  end.

(** One block of VEP annotations: a list of dictionaries. *)
Definition vep_annotations : Type := list (gmap string string).

(** A variant dictionary.  Its string-valued entries ([CHROM], [POS], [ID],
    [REF], [ALT], [QUAL], [FILTER], [FORMAT], [INFO], [variant_id] and the
    raw genotype token of each individual) are the map [columns]; the three
    structured entries [info_dict], [vep_info] and [genotypes] are [None]
    when the key is absent.  (An individual named like one of these three
    keys is outside the model.) *)
Record VariantDict := {
  columns : gmap string string;
  info_dict : option (odict (list string));
  vep_info : option (gmap string vep_annotations);
  genotypes : option (odict Genotype.t)
}.

(** [d[k]] on a [dict]. *)
Definition getitem {V} (d : gmap string V) (k : string) : Py.result V :=
  match d !! k with
  | Some v => Py.Ok v
  | None => Py.Raise (Py.KeyError k)
  end.

(** [variant_dict[k]] for one of the structured entries. *)
Definition getentry {V} (entry : option V) (k : string) : Py.result V :=
  match entry with
  | Some v => Py.Ok v
  | None => Py.Raise (Py.KeyError k)
  end.

(** A generator run to its end: the records it yielded, and the exception
    that ended it, if any. *)
Definition generated (A : Type) : Type := list A * option Py.exn.

(** The functions the two modules import from the package
    [vcf_parser.utils] and whose definitions are not among the sources
    (split_variants.py l.12, parser.py l.83).  [format_variant] is called
    with the line alone (parser.py l.165), the second argument then being
    [None], and with the line and the attributes [individuals], [header]
    and [vep_header] of the parser (parser.py l.149-151). *)
Class Utils := {
  build_vep_string : vep_annotations -> Py.result string;
  split_genotype : string -> string -> nat -> Py.result string;
  format_variant :
    string -> option (list string * list string * list string) ->
    Py.result VariantDict
}.

(** ** utils/split_variants.py *)

Module SplitVariants.

(** [number_of_values] is the integer [1] (l.31) until a [Number] entry of
    the header, a string, is assigned to it (l.62). *)
Inductive number :=
| NumInt (n : Z)
| NumStr (s : string).

(** [number_of_values == s] for a string [s]. *)
Definition number_is (n : number) (s : string) : bool :=
  match n with
  | NumStr s' => String.eqb s' s
  | NumInt _ => false
  end.

(** What the loop over the annotation keys (l.57-101) updates. *)
Record state := {
  number_of_values : number;
  new_info_dict : odict (list string);
  vep_dict : gmap string vep_annotations
}.

(** The state the loop starts from for each alternative (l.35-37). *)
Definition initial_state (n : number) : state :=
  {| number_of_values := n; new_info_dict := []; vep_dict := ∅ |}.

(** [info_dict[info] = v] *)
Definition set_info (st : state) (info : string) (v : list string) : state :=
  {| number_of_values := number_of_values st;
     new_info_dict := odict_set (new_info_dict st) info v;
     vep_dict := vep_dict st |}.

(** Besides the attributes every module has, the module binds the names
    [unicode_literals], [sys], [getLogger], [OrderedDict],
    [build_vep_string], [split_genotype] and [split_variants], and no other
    (l.1-14).  The function also reads [logger] (l.64),
    [build_info_string] (l.103), [Genotype] and [gt_format] (l.113): none of
    them is a local of the function, a global of the module or a builtin,
    so each is read with [Py.unbound]. *)

(** l.60-66.  The handler of [KeyError] reads [logger] before it raises the
    exception again. *)
Definition lookup_number (metadata : option HeaderParser) (info : string)
    (current : number) : Py.result number :=
  match metadata with
  | Some md =>
      match (decl <- getitem (extra_info md) info ;;
             n <- getitem decl "Number" ;;
             Py.Ok (NumStr n)) with
      | Py.Raise (Py.KeyError k) =>
          logger <- Py.unbound "logger" ;;
          let _ : unit := logger in
          Py.Raise (Py.KeyError k)
      | r => r
      end
  | None => Py.Ok current
  end.

(** l.78-84: one value per alternative allele. *)
Definition per_alt_branch (values : list string) (alternative_number : nat)
  : Py.result (list string) :=
  Py.except_IndexError
    (x <- Py.item values alternative_number ;; Py.Ok [x])
    (x <- Py.item values 0 ;; Py.Ok [x]).

(** l.86-95: one value for the reference and one per alternative allele;
    [None] when the key is left out. *)
Definition per_allele_branch (values : list string) (alternative_number : nat)
  : Py.result (option (list string)) :=
  reference_value <- Py.item values 0 ;;
  Py.except_IndexError
    (x <- Py.item values (alternative_number + 1) ;;
     Py.Ok (Some [reference_value; x]))
    (Py.Ok None).

(** l.34-55: the fixed columns of the new [variant]. *)
Definition fixed_columns (vd : VariantDict) (alternative_number : nat)
    (alternative : string) : Py.result (gmap string string) :=
  let variant : gmap string string := ∅ in
  chrom <- getitem (columns vd) "CHROM" ;;
  let variant := <["CHROM" := chrom]> variant in
  pos <- getitem (columns vd) "POS" ;;
  let variant := <["POS" := pos]> variant in
  id <- Py.except_IndexError
          (ids <- getitem (columns vd) "ID" ;;
           Py.item (Py.split ";" ids) alternative_number)
          (getitem (columns vd) "ID") ;;
  let variant := <["ID" := id]> variant in
  ref <- getitem (columns vd) "REF" ;;
  let variant := <["REF" := ref]> variant in
  let variant := <["ALT" := alternative]> variant in
  qual <- getitem (columns vd) "QUAL" ;;
  let variant := <["QUAL" := qual]> variant in
  filter <- getitem (columns vd) "FILTER" ;;
  let variant := <["FILTER" := filter]> variant in
  match columns vd !! "FORMAT" with
  | Some format => Py.Ok (<["FORMAT" := format]> variant)
  | None => Py.Ok variant
  end.

Section Splitter.

Context {utils : Utils}.

(** l.68-75: the branch of the key [CSQ]; a [KeyError] of either statement
    of the [try] is swallowed, the assignment to [vep_dict] stays. *)
Definition csq_branch (vd : VariantDict) (alternative : string) (st : state)
  : Py.result state :=
  match (vi <- getentry (vep_info vd) "vep_info" ;; getitem vi alternative) with
  | Py.Ok v =>
      let vep_dict' := <[alternative := v]> (vep_dict st) in
      match build_vep_string v with
      | Py.Ok s =>
          Py.Ok {| number_of_values := number_of_values st;
                   new_info_dict := odict_set (new_info_dict st) "CSQ" [s];
                   vep_dict := vep_dict' |}
      | Py.Raise (Py.KeyError _) =>
          Py.Ok {| number_of_values := number_of_values st;
                   new_info_dict := new_info_dict st;
                   vep_dict := vep_dict' |}
      | Py.Raise e => Py.Raise e
      end
  | Py.Raise (Py.KeyError _) => Py.Ok st
  | Py.Raise e => Py.Raise e
  end.

(** l.58-101: the body of the loop for one key [info]; [old] is
    [variant_dict['info_dict']]. *)
Definition info_step (vd : VariantDict) (old : odict (list string))
    (metadata : option HeaderParser) (alternative_number : nat)
    (alternative : string) (st : state) (info : string) : Py.result state :=
  if negb (String.eqb info "") then
    n <- lookup_number metadata info (number_of_values st) ;;
    let st := {| number_of_values := n;
                 new_info_dict := new_info_dict st;
                 vep_dict := vep_dict st |} in
    if String.eqb info "CSQ" then csq_branch vd alternative st
    else if number_is n "A" then
      values <- odict_get old info ;;
      v <- per_alt_branch values alternative_number ;;
      Py.Ok (set_info st info v)
    else if number_is n "R" then
      values <- odict_get old info ;;
      v <- per_allele_branch values alternative_number ;;
      match v with
      | Some new_info => Py.Ok (set_info st info new_info)
      | None => Py.Ok st
      end
    else
      values <- odict_get old info ;;
      Py.Ok (set_info st info values)
  else Py.Ok (set_info st info []).

(** l.57: [for info in variant_dict['info_dict']]. *)
Fixpoint info_loop (vd : VariantDict) (old : odict (list string))
    (metadata : option HeaderParser) (alternative_number : nat)
    (alternative : string) (st : state) (keys : list string)
  : Py.result state :=
  match keys with
  | [] => Py.Ok st
  | info :: keys' =>
      st' <- info_step vd old metadata alternative_number alternative st info ;;
      info_loop vd old metadata alternative_number alternative st' keys'
  end.

(** l.106-113: the body of the loop for one [individual]; [variant] and
    [genotype_dict] are what it updates. *)
Definition individual_step (vd : VariantDict) (alternative_number : nat)
    (acc : gmap string string * odict Genotype.t) (individual : string)
  : Py.result (gmap string string * odict Genotype.t) :=
  let '(variant, genotype_dict) := acc in
  token <- getitem (columns vd) individual ;;
  format <- getitem variant "FORMAT" ;;
  new_genotype <- split_genotype token format alternative_number ;;
  let variant := <[individual := new_genotype]> variant in
  Genotype_class <- Py.unbound "Genotype" ;;
  gt_format <- Py.unbound "gt_format" ;;
  raw <- getitem variant individual ;;
  call <- (Genotype_class : list (string * string) -> Py.result Genotype.t)
            (combine (Py.split ":" gt_format) (Py.split ":" raw)) ;;
  Py.Ok (variant, odict_set genotype_dict individual call).

(** l.105: [for individual in variant_dict['genotypes']]. *)
Fixpoint individuals_loop (vd : VariantDict) (alternative_number : nat)
    (acc : gmap string string * odict Genotype.t) (individuals : list string)
  : Py.result (gmap string string * odict Genotype.t) :=
  match individuals with
  | [] => Py.Ok acc
  | individual :: rest =>
      acc' <- individual_step vd alternative_number acc individual ;;
      individuals_loop vd alternative_number acc' rest
  end.

(** l.34-123: the body of the loop for one alternative allele, up to its
    [yield]: the record to yield and the value of [number_of_values]. *)
Definition split_body (vd : VariantDict) (metadata : option HeaderParser)
    (current : number) (alternative_number : nat) (alternative : string)
  : Py.result (VariantDict * number) :=
  variant <- fixed_columns vd alternative_number alternative ;;
  old <- getentry (info_dict vd) "info_dict" ;;
  st <- info_loop vd old metadata alternative_number alternative
          (initial_state current) (odict_keys old) ;;
  build_info_string <- Py.unbound "build_info_string" ;;
  info <- (build_info_string : odict (list string) -> Py.result string)
            (new_info_dict st) ;;
  let variant := <["INFO" := info]> variant in
  individuals <- getentry (genotypes vd) "genotypes" ;;
  r <- individuals_loop vd alternative_number (variant, [])
         (odict_keys individuals) ;;
  let '(variant, genotype_dict) := r in
  chrom <- getitem variant "CHROM" ;;
  pos <- getitem variant "POS" ;;
  ref <- getitem variant "REF" ;;
  let variant :=
    <["variant_id" := Py.join "_" [chrom; pos; ref; alternative]]> variant in
  Py.Ok ({| columns := variant;
            info_dict := Some (new_info_dict st);
            vep_info := Some (vep_dict st);
            genotypes := Some genotype_dict |},
         number_of_values st).

(** l.33: [for alternative_number, alternative in enumerate(alternatives)];
    [number_of_values] is a local of the generator and survives from one
    alternative to the next. *)
Fixpoint split_loop (vd : VariantDict) (metadata : option HeaderParser)
    (current : number) (alternative_number : nat)
    (alternatives : list string) : generated VariantDict :=
  match alternatives with
  | [] => ([], None)
  | alternative :: rest =>
      match split_body vd metadata current alternative_number alternative with
      | Py.Raise e => ([], Some e)
      | Py.Ok (variant, n) =>
          let '(more, ended) :=
            split_loop vd metadata n (S alternative_number) rest in
          (variant :: more, ended)
      end
  end.

(** [split_variants(variant_dict, metadata)]; [metadata] is [None] when the
    argument is left out or false in a condition (l.60). *)
Definition split_variants (variant_dict : VariantDict)
    (metadata : option HeaderParser) : generated VariantDict :=
  match (alt <- getitem (columns variant_dict) "ALT" ;;
         reference <- getitem (columns variant_dict) "REF" ;;
         Py.Ok (Py.split "," alt)) with
  | Py.Raise e => ([], Some e)
  | Py.Ok alternatives =>
      split_loop variant_dict metadata (NumInt 1) 0 alternatives
  end.

End Splitter.

End SplitVariants.

(** ** parser.py: [VCFParser.__iter__] *)

Module VCFParser.

(** The attributes of the parser that [__iter__] reads.  [metadata] is
    [None] when the object is false in a condition. *)
Record t := {
  split_variants : bool;
  metadata : option HeaderParser;
  individuals : list string;
  header : list string;
  vep_header : list string;
  beginning : bool
}.

Definition tab : ascii := ascii_of_nat 9.

(** l.163: [len(line.split('\t')) >= 8]. *)
Definition enough_columns (line : string) : bool :=
  (8 <=? length (Py.split tab line))%nat.

(** The test of l.163 on a line of the stream, after the [rstrip] of
    l.143. *)
Definition full (line : string) : bool := enough_columns (Py.rstrip line).

(** l.153 and l.167: [self.split_variants and
    len(variant['ALT'].split(',')) > 1]; the right operand is evaluated
    only when the left one is true. *)
Definition must_split (split : bool) (variant : VariantDict) : Py.result bool :=
  if split then
    alt <- getitem (columns variant) "ALT" ;;
    Py.Ok (1 <? length (Py.split "," alt))%nat
  else Py.Ok false.

Section Driver.

Context {utils : Utils}.

(** l.153-159 and l.167-172: what a decoded record adds to [variants]. *)
Definition records_of (self : t) (variant : VariantDict)
  : Py.result (list VariantDict) :=
  multi <- must_split (split_variants self) variant ;;
  if negb multi then Py.Ok [variant]
  else
    match SplitVariants.split_variants variant (metadata self) with
    | (splitted, None) => Py.Ok splitted
    | (_, Some e) => Py.Raise e
    end.

(** l.148-161: the branch of the first turn.  The first argument of the
    call is the bare name [next_line]: the method has no such local and
    the module no such global (the first data line is kept in the
    attribute [self.next_line], l.125-135), so it is read with
    [Py.unbound]. *)
Definition first_turn (self : t) : Py.result (list VariantDict) :=
  next_line <- Py.unbound "next_line" ;;
  first_variant <-
    format_variant next_line
      (Some (individuals self, header self, vep_header self)) ;;
  records_of self first_variant.

(** l.163-172: what the line of the turn adds to [variants]. *)
Definition decode_line (self : t) (line : string)
  : Py.result (list VariantDict) :=
  if enough_columns line then
    variant <- format_variant line None ;;
    records_of self variant
  else Py.Ok [].

(** l.143-172: the list [variants] of one turn of the loop, [first] being
    the value of [self.beginning] when the turn starts. *)
Definition line_variants (self : t) (first : bool) (line : string)
  : Py.result (list VariantDict) :=
  let line := Py.rstrip line in
  before <- (if first then first_turn self else Py.Ok []) ;;
  after <- decode_line self line ;;
  Py.Ok (before ++ after)%list.

(** l.142-175: [for line in self.vcf], over the lines the stream still
    holds.  An exception ends the generator before the [variants] of that
    line are yielded; after a turn [self.beginning] is false (l.161). *)
Fixpoint turns (self : t) (first : bool) (vcf : list string)
  : generated VariantDict :=
  match vcf with
  | [] => ([], None)
  | line :: rest =>
      match line_variants self first line with
      | Py.Raise e => ([], Some e)
      | Py.Ok variants =>
          let '(more, ended) := turns self false rest in
          ((variants ++ more)%list, ended)
      end
  end.

Definition __iter__ (self : t) (vcf : list string) : generated VariantDict :=
  turns self (beginning self) vcf.

End Driver.

(** *** [VCFParser.__init__] *)

(** The stream the constructor reads (l.93-113): [sys.stdin] as l.97-103
    leave it, or the file at a path, opened through [gzip] or as text.  The
    file system is not modelled: the value names what is opened. *)
Inductive stream :=
| Stdin
| GzipFile (path : string)
| TextFile (path : string).

(** The exceptions of the constructor that are no [Py.exn]. *)
Inductive init_error :=
| IOError (message : string)
| AttributeError (attribute : string).

(** What the constructor asks of the argument [fsock]: whether it has an
    attribute [name] (l.97). *)
Record fsock_object := { has_name : bool }.

(** An argument that is [None] or the empty string is false. *)
Definition given (infile : option string) : bool :=
  match infile with
  | Some (String _ _) => true
  | _ => false
  end.

Definition no_input : string := "You must provide at least fsock or filename".

Definition not_supported : string :=
  "File is not in a supported format!" ++ String (ascii_of_nat 10) EmptyString
  ++ " Or use correct ending(.vcf or .vcf.gz)".

(** l.93-113, and the read of [self.vcf] of l.125: when no branch assigned
    the attribute, that read raises [AttributeError]. *)
Definition stream_of (infile : option string) (fsock : option fsock_object)
  : init_error + stream :=
  match fsock, given infile with
  | None, false => inl (IOError no_input)
  | Some f, g =>
      if negb g && has_name f then inr Stdin
      else inl (AttributeError "vcf")
  | None, true =>
      let path := default EmptyString infile in
      let '(file_name, file_extension) := OsPath.splitext path in
      if String.eqb file_extension ".gz" then inr (GzipFile path)
      else if String.eqb file_extension ".vcf" then inr (TextFile path)
      else inl (IOError not_supported)
  end.

(** Class [HeaderParser] is not among the sources: its constructor, the two
    methods the constructor of the parser calls (l.127-134) and the three
    attributes it reads (l.137-139) are taken as given, over a state of the
    object that is left open.  [header_view] is the object as the splitter
    reads it. *)
Class Header := {
  header_state : Type;
  HeaderParser_new : header_state;
  parse_meta_data : header_state -> string -> Py.result header_state;
  parse_header_line : header_state -> string -> Py.result header_state;
  header_view : header_state -> option HeaderParser;
  header_individuals : header_state -> list string;
  header_header : header_state -> list string;
  header_vep_columns : header_state -> list string
}.

Section Constructor.

Context {hp : Header}.

(** l.131-134: the method a line that starts with [#] is given to. *)
Definition parse_line (md : header_state) (line : string)
  : Py.result header_state :=
  if Py.startswith "##" line then parse_meta_data md line
  else parse_header_line md line.

(** l.130-135: [while self.next_line.startswith('#')], over the lines the
    stream still holds; the result is the header, [self.next_line] and the
    rest of the stream. *)
Fixpoint header_loop (md : header_state) (next_line : string)
    (vcf : list string) : Py.result (header_state * string * list string) :=
  if Py.startswith "#" next_line then
    md' <- parse_line md next_line ;;
    match vcf with
    | [] => Py.Ok (md', Py.rstrip EmptyString, [])
    | line :: rest => header_loop md' (Py.rstrip line) rest
    end
  else Py.Ok (md, next_line, vcf).

(** The parser after [__init__]: its attributes, the first line that is no
    header line, the header object and the lines left in the stream. *)
Record constructed := {
  self : t;
  next_line : string;
  metadata_object : header_state;
  vcf : list string
}.

(** l.115-139, on the lines of the stream that was opened. *)
Definition read_header (split : bool) (lines : list string)
  : Py.result constructed :=
  let md := HeaderParser_new in
  let '(line, vcf) := Py.readline lines in
  let next_line := Py.rstrip line in
  md <- parse_meta_data md next_line ;;
  r <- header_loop md next_line vcf ;;
  let '(md, next_line, vcf) := r in
  Py.Ok {| self := {| split_variants := split;
                      metadata := header_view md;
                      individuals := header_individuals md;
                      header := header_header md;
                      vep_header := header_vep_columns md;
                      beginning := true |};
           next_line := next_line;
           metadata_object := md;
           vcf := vcf |}.

(** [for variant in VCFParser(...)]: the constructor on the lines of the
    stream, then [__iter__] on what it left. *)
Definition parse {utils : Utils} (split : bool) (lines : list string)
  : generated VariantDict :=
  match read_header split lines with
  | Py.Raise e => ([], Some e)
  | Py.Ok r => __iter__ (self r) (vcf r)
  end.

End Constructor.

End VCFParser.

(** ** Vocabulary of the statements *)

(** Exactly one of three flags is set. *)
Definition exactly_one (a b c : bool) : Prop :=
  (a = true /\ b = false /\ c = false) \/
  (a = false /\ b = true /\ c = false) \/
  (a = false /\ b = false /\ c = true).


(** A record with one alternative allele. *)
Definition single_alternative (v : VariantDict) : Prop :=
  exists alt,
    columns v !! "ALT" = Some alt /\ length (Py.split "," alt) = 1%nat.

(** *** Sample inputs *)

Definition sample_columns (alt : string) : gmap string string :=
  list_to_map
    [("CHROM", "1"); ("POS", "100"); ("ID", "rs1;rs2"); ("REF", "T");
     ("ALT", alt); ("QUAL", "50"); ("FILTER", "PASS")].

(** [ALT=A] with no annotation and no individual. *)
Definition record_one_alternative : VariantDict :=
  {| columns := sample_columns "A";
     info_dict := Some [];
     vep_info := None;
     genotypes := Some [] |}.

(** [ALT=A,G] with no annotation and no individual. *)
Definition record_two_alternatives : VariantDict :=
  {| columns := sample_columns "A,G";
     info_dict := Some [];
     vep_info := None;
     genotypes := Some [] |}.

(** [ALT=A,G] with the annotation [AF=10,20]. *)
Definition record_per_alt_annotation : VariantDict :=
  {| columns := sample_columns "A,G";
     info_dict := Some [("AF", ["10"; "20"])];
     vep_info := None;
     genotypes := Some [] |}.


(** [ALT=A,G], [FORMAT=GT] and one individual whose call is [1/2]. *)
Definition record_one_individual : VariantDict :=
  {| columns :=
       <["FORMAT" := "GT"]> (<["father" := "1/2"]> (sample_columns "A,G"));
     info_dict := Some [];
     vep_info := None;
     genotypes :=
       Some [("father",
              Genotype.mk true false false true true false "1" "2" "1/2"
                (Genotype.Raw ".") (Genotype.Raw ".") (Some 0)
                (Some (Py.FDecimal false 0 0)) [])] |}.

(** A header that declares [AF] with [Number=A]. *)
Definition header_AF_per_alt : HeaderParser :=
  {| extra_info := {[ "AF" := {[ "Number" := "A" ]} ]} |}.

(** A header without any declaration. *)
Definition header_empty : HeaderParser := {| extra_info := ∅ |}.

(** Stand-ins for the package [vcf_parser.utils] in the closed statements:
    the helpers of the splitter are never reached there, and the decoder
    gives every line the same record. *)
Definition utils_decoding (v : VariantDict) : Utils :=
  {| build_vep_string := fun _ => Py.Raise Py.TypeError;
     split_genotype := fun _ _ _ => Py.Raise Py.TypeError;
     format_variant := fun _ _ => Py.Ok v |}.

(** A parser past its first turn, and a parser as [__init__] leaves it
    (l.128). *)
Definition parser_running (split : bool) : VCFParser.t :=
  {| VCFParser.split_variants := split;
     VCFParser.metadata := Some header_empty;
     VCFParser.individuals := [];
     VCFParser.header := [];
     VCFParser.vep_header := [];
     VCFParser.beginning := false |}.

Definition parser_fresh (split : bool) : VCFParser.t :=
  {| VCFParser.split_variants := split;
     VCFParser.metadata := Some header_empty;
     VCFParser.individuals := [];
     VCFParser.header := [];
     VCFParser.vep_header := [];
     VCFParser.beginning := true |}.

Definition newline : string := String (ascii_of_nat 10) EmptyString.

(** A line of two columns and a line of eight. *)
Definition short_line : string :=
  "1" ++ String VCFParser.tab "100" ++ newline.

Definition full_line : string :=
  Py.join (String VCFParser.tab EmptyString)
    ["1"; "100"; "rs1"; "T"; "A"; "50"; "PASS"; "."] ++ newline.

(** *** Vocabulary of the further properties *)

(** [g] with another value of [phased]. *)
Definition with_phased (b : bool) (g : Genotype.t) : Genotype.t :=
  Genotype.mk (Genotype.heterozygote g) (Genotype.homo_alt g)
    (Genotype.homo_ref g) (Genotype.has_variant g) (Genotype.genotyped g) b
    (Genotype.allele_1 g) (Genotype.allele_2 g) (Genotype.genotype g)
    (Genotype.ref_depth g) (Genotype.alt_depth g)
    (Genotype.depth_of_coverage g) (Genotype.genotype_quality g)
    (Genotype.phred_likelihoods g).

(** The state of the loop over the annotation keys with another
    [number_of_values]. *)
Definition with_number (n : SplitVariants.number) (st : SplitVariants.state)
  : SplitVariants.state :=
  {| SplitVariants.number_of_values := n;
     SplitVariants.new_info_dict := SplitVariants.new_info_dict st;
     SplitVariants.vep_dict := SplitVariants.vep_dict st |}.

(** The header declares [key] with [Number=number]. *)
Definition declared (md : HeaderParser) (key number : string) : Prop :=
  extra_info md !! key ≫= (fun decl => decl !! "Number") = Some number.

(** The string-valued keys the splitter reads from every record, in the
    order in which it first reads them (l.29, 30, 39, 40, 43, 50, 51). *)
Definition required_columns : list string :=
  ["ALT"; "REF"; "CHROM"; "POS"; "ID"; "QUAL"; "FILTER"].

(** The first key of a record that the splitter will miss. *)
Definition first_missing (vd : VariantDict) : option string :=
  match List.find (fun k => match columns vd !! k with
                            | Some _ => false
                            | None => true
                            end)
          required_columns with
  | Some k => Some k
  | None => match info_dict vd with
            | None => Some "info_dict"
            | Some _ => None
            end
  end.

(** The annotation under [key] is copied whole: there is no header, or the
    header declares the key with a [Number] other than [A] and [R]. *)
Definition copied_whole (metadata : option HeaderParser) (key : string)
  : Prop :=
  match metadata with
  | None => True
  | Some md => exists number,
      declared md key number /\ number <> "A" /\ number <> "R"
  end.

(** The key [CSQ] can be looked up: there is no header, or the header
    declares it. *)
Definition csq_declared (metadata : option HeaderParser) : Prop :=
  match metadata with
  | None => True
  | Some md => exists number, declared md "CSQ" number
  end.

(** A header that declares [AF] with [Number=A], [AD] with [Number=R] and
    [DP] with [Number=1]. *)
Definition header_three_keys : HeaderParser :=
  {| extra_info := {[ "AF" := {[ "Number" := "A" ]};
                      "AD" := {[ "Number" := "R" ]};
                      "DP" := {[ "Number" := "1" ]} ]} |}.

(** [ALT=A,G] with the annotations [DP=7], [AF=10,20] and [AD=1,2,3]. *)
Definition record_three_keys : VariantDict :=
  {| columns := sample_columns "A,G";
     info_dict := Some [("DP", ["7"]); ("AF", ["10"; "20"]);
                        ("AD", ["1"; "2"; "3"])];
     vep_info := None;
     genotypes := Some [] |}.

(** [ALT=A,G] without the column [QUAL]. *)
Definition record_without_QUAL : VariantDict :=
  {| columns := delete "QUAL" (sample_columns "A,G");
     info_dict := Some [];
     vep_info := None;
     genotypes := Some [] |}.

(** Without a header the cardinality stays what it was; it is not [A] or
    [R] when the generator started it at [1]. *)
Definition steady (metadata : option HeaderParser) (n : SplitVariants.number)
  : Prop :=
  match metadata with
  | None => SplitVariants.number_is n "A" = false /\
            SplitVariants.number_is n "R" = false
  | Some _ => True
  end.

(** Every value [new] holds under a key other than [CSQ] is a value [old]
    holds under the same key. *)
Definition from_source (old new : odict (list string)) : Prop :=
  forall k vs,
    odict_get new k = Py.Ok vs -> k <> "CSQ" ->
    exists vs0, odict_get old k = Py.Ok vs0 /\ incl vs vs0.

(** A second line of eight columns, and a decoder that raises on it. *)
Definition rejected_line : string :=
  Py.join (String VCFParser.tab EmptyString)
    ["1"; "200"; "rs3"; "C"; "x"; "50"; "PASS"; "."] ++ newline.

Definition utils_rejecting (v : VariantDict) (bad : string) : Utils :=
  {| build_vep_string := fun _ => Py.Raise Py.TypeError;
     split_genotype := fun _ _ _ => Py.Raise Py.TypeError;
     format_variant := fun line _ =>
       if String.eqb line bad then Py.Raise Py.ValueError else Py.Ok v |}.

(** The characters of [root] after its last [/]. *)
Definition file_name (root : string) : list ascii :=
  let l := list_ascii_of_string root in
  skipn (Z.to_nat (OsPath.rfind "/" l + 1)) l.

(** The file name of [root] has a character other than [.]. *)
Definition named (root : string) : bool :=
  existsb (fun c => negb (Ascii.eqb c ".")) (file_name root).

(** [path] is a path with such a file name followed by [ext]. *)
Definition has_extension (path ext : string) : Prop :=
  exists root, path = root ++ ext /\ named root = true.

(** A string of whitespace, in the sense of [str.rstrip()]. *)
Definition blank (ws : string) : Prop :=
  Forall (fun c => Py.char_isspace c = true) (list_ascii_of_string ws).

(** A line of the stream that the constructor takes for a header line. *)
Definition header_line (line : string) : bool :=
  Py.startswith "#" (Py.rstrip line).

(** [m] after the lines of [lines] were given to it one after the other,
    or the first exception. *)
Fixpoint fed {hp : VCFParser.Header} (m : VCFParser.header_state)
    (lines : list string) : Py.result VCFParser.header_state :=
  match lines with
  | [] => Py.Ok m
  | line :: rest => m' <- VCFParser.parse_line m line ;; fed m' rest
  end.

(** A header object that only records the lines its two methods were
    given, with the name of the method. *)
Definition recording_header : VCFParser.Header :=
  {| VCFParser.header_state := list (string * string);
     VCFParser.HeaderParser_new := [];
     VCFParser.parse_meta_data :=
       fun m line => Py.Ok (m ++ [("parse_meta_data", line)])%list;
     VCFParser.parse_header_line :=
       fun m line => Py.Ok (m ++ [("parse_header_line", line)])%list;
     VCFParser.header_view := fun _ => Some header_empty;
     VCFParser.header_individuals := fun _ => [];
     VCFParser.header_header := fun _ => [];
     VCFParser.header_vep_columns := fun _ => [] |}.

(** Two header lines and a line of seven columns followed by a tab. *)
Definition meta_line : string := "##fileformat=VCFv4.1" ++ newline.

Definition column_line : string := "#CHROM" ++ newline.

Definition seven_columns : string :=
  Py.join (String VCFParser.tab EmptyString)
    ["1"; "100"; "rs1"; "T"; "A"; "50"; "PASS"].

(** ** The genotype decoder *)

Section GenotypeFacts.

Import Genotype.

(** What a successful call of [__init__] tells about the instance. *)
Lemma init_inversion GT AD DP GQ PL g :
  __init__ GT AD DP GQ PL = Py.Ok g ->
  exists a1 a2,
    alleles GT = Py.Ok (a1, a2) /\
    allele_1 g = a1 /\ allele_2 g = a2 /\
    genotype g = a1 ++ "/" ++ a2 /\
    (heterozygote g, homo_alt g, homo_ref g, has_variant g, genotyped g)
      = zygosity a1 a2 (a1 ++ "/" ++ a2) /\
    depths AD = Py.Ok (ref_depth g, alt_depth g).
Proof.
  unfold __init__. intros H.
  destruct (alleles GT) as [[a1 a2]|e]; simpl in H; [|discriminate].
  exists a1, a2.
  destruct (zygosity a1 a2 (a1 ++ "/" ++ a2)) as [[[[h ha] hr] hv] gt].
  destruct (depths AD) as [[rd ad]|e]; simpl in H; [|discriminate].
  destruct (try_assign Py.int DP) as [dc|e]; simpl in H; [|discriminate].
  destruct (try_assign Py.float GQ) as [gq|e]; simpl in H; [|discriminate].
  destruct (likelihoods PL) as [pl|e]; simpl in H; [|discriminate].
  injection H as <-. simpl. repeat split; reflexivity.
Qed.

(** The flags [zygosity] gives are one of four rows. *)
Lemma zygosity_rows a1 a2 gt :
  zygosity a1 a2 gt = (false, false, false, false, false) \/
  zygosity a1 a2 gt = (false, false, true, false, true) \/
  zygosity a1 a2 gt = (false, true, false, true, true) \/
  zygosity a1 a2 gt = (true, false, false, true, true).
Proof.
  unfold zygosity.
  destruct (String.eqb gt "./."); simpl; [now left|].
  destruct (String.eqb gt "0/0"); [now right; left|].
  destruct (String.eqb a1 a2);
    [now right; right; left | now right; right; right].
Qed.

(** A token of fewer than three characters is its own first allele. *)
Lemma alleles_short GT :
  Py.len GT < 3 -> alleles GT = Py.Ok (GT, ".").
Proof.
  intros H. unfold alleles.
  destruct (Py.len GT <? 3) eqn:E; [reflexivity|].
  apply Z.ltb_ge in E. lia.
Qed.

(** The canonical genotype of a short token other than [.] is neither
    [./.] nor [0/0], and its alleles differ. *)
Lemma zygosity_short GT :
  Py.len GT < 3 -> GT <> "." ->
  zygosity GT "." (GT ++ "/" ++ ".") = (true, false, false, true, true).
Proof.
  intros Hlen Hne. unfold zygosity.
  assert (Hdot : String.eqb GT "." = false) by (now apply String.eqb_neq).
  destruct GT as [|c1 [|c2 [|c3 rest]]].
  - reflexivity.
  - simpl in *. rewrite Hdot.
    destruct (Ascii.eqb c1 "."); [discriminate|].
    simpl. destruct (Ascii.eqb c1 "0"); reflexivity.
  - simpl.
    destruct (Ascii.eqb c1 "."), (Ascii.eqb c1 "0"), (Ascii.eqb c2 "/");
      simpl; try reflexivity;
      destruct (Ascii.eqb c2 "."); reflexivity.
  - unfold Py.len in Hlen. simpl in Hlen. lia.
Qed.

(** C1.  Every instance the decoder builds has exactly one of [homo_ref],
    [homo_alt] and [heterozygote] set (and is then genotyped), or none of
    them and [genotyped] false; and [has_variant] is [homo_alt or
    heterozygote]. *)
Theorem zygosity_flags_exclusive GT AD DP GQ PL g :
  __init__ GT AD DP GQ PL = Py.Ok g ->
  ((exactly_one (homo_ref g) (homo_alt g) (heterozygote g)
    /\ genotyped g = true)
   \/ (homo_ref g = false /\ homo_alt g = false /\ heterozygote g = false
       /\ genotyped g = false))
  /\ has_variant g = homo_alt g || heterozygote g.
Proof.
  intros H.
  destruct (init_inversion _ _ _ _ _ _ H) as (a1 & a2 & _ & _ & _ & _ & Hz & _).
  unfold exactly_one.
  destruct (zygosity_rows a1 a2 (a1 ++ "/" ++ a2)) as [R|[R|[R|R]]];
    rewrite R in Hz; injection Hz as -> -> -> -> ->; simpl; intuition.
Qed.

Lemma zygosity_flags_exclusive_witness :
  exists g,
    __init__ "1|1" "3,4" "7" "99" (Some "0,10,100") = Py.Ok g /\
    ((exactly_one (homo_ref g) (homo_alt g) (heterozygote g)
      /\ genotyped g = true)
     \/ (homo_ref g = false /\ homo_alt g = false /\ heterozygote g = false
         /\ genotyped g = false))
    /\ has_variant g = homo_alt g || heterozygote g.
Proof.
  eexists. split; [reflexivity|].
  apply (zygosity_flags_exclusive "1|1" "3,4" "7" "99" (Some "0,10,100")).
  reflexivity.
Defined.

(** C10.  A genotype token of fewer than three characters other than [.]
    is classified heterozygote with [has_variant] set: its second allele is
    [.] and its canonical genotype the token followed by [/.]; so the token
    [0] becomes [0/.], a heterozygote and not a homozygous reference. *)
Theorem short_token_is_heterozygote GT AD DP GQ PL g :
  Py.len GT < 3 -> GT <> "." ->
  __init__ GT AD DP GQ PL = Py.Ok g ->
  heterozygote g = true /\ has_variant g = true /\
  homo_ref g = false /\ homo_alt g = false /\ genotyped g = true /\
  allele_1 g = GT /\ allele_2 g = "." /\ genotype g = GT ++ "/.".
Proof.
  intros Hlen Hne H.
  destruct (init_inversion _ _ _ _ _ _ H)
    as (a1 & a2 & Ha & H1 & H2 & Hg & Hz & _).
  rewrite (alleles_short GT Hlen) in Ha. injection Ha as <- <-.
  rewrite (zygosity_short GT Hlen Hne) in Hz.
  injection Hz as -> -> -> -> ->.
  repeat split; assumption.
Qed.

Lemma short_token_is_heterozygote_witness :
  exists g,
    __init__ "0" default_AD default_DP default_GQ default_PL = Py.Ok g /\
    heterozygote g = true /\ has_variant g = true /\
    homo_ref g = false /\ homo_alt g = false /\ genotyped g = true /\
    allele_1 g = "0" /\ allele_2 g = "." /\ genotype g = "0/.".
Proof.
  eexists. split; [reflexivity|].
  apply (short_token_is_heterozygote "0" default_AD default_DP default_GQ
           default_PL).
  - unfold Py.len. simpl. lia.
  - discriminate.
  - reflexivity.
Defined.

End GenotypeFacts.

Section GenotypeSubfields.

Import Genotype.

(** The guarded conversions of l.90-97 never raise. *)
Lemma try_assign_int_ok DP : exists v, try_assign Py.int DP = Py.Ok v.
Proof.
  unfold try_assign, Py.int.
  destruct (Py.int_opt DP); simpl; eauto.
Qed.

Lemma try_assign_float_ok GQ : exists v, try_assign Py.float GQ = Py.Ok v.
Proof.
  unfold try_assign, Py.float.
  destruct (Py.float_opt GQ); simpl; eauto.
Qed.

(** The last character of a non-empty string, and the alleles of any
    token, are always there. *)
Lemma last_returns c s : exists x, Py.last (String c s) = Py.Ok x.
Proof.
  revert c. induction s as [|d s IH]; intros c; simpl; [eauto|].
  destruct (IH d) as [x Hx]. simpl in Hx. rewrite Hx. eauto.
Qed.

Lemma alleles_returns GT : exists a, alleles GT = Py.Ok a.
Proof.
  unfold alleles. destruct (Py.len GT <? 3) eqn:E; [eauto|].
  apply Z.ltb_ge in E. unfold Py.len in E.
  destruct GT as [|c GT']; [simpl in E; lia|].
  destruct (last_returns c GT') as [x Hx]. simpl in *. rewrite Hx.
  simpl. eauto.
Qed.

(** Whether [__init__] returns does not depend on the tokens [DP] and
    [GQ]: only [AD] and [PL] can make it raise. *)
Lemma init_returns_iff GT AD DP GQ PL :
  Py.is_ok (__init__ GT AD DP GQ PL)
  = Py.is_ok (depths AD) && Py.is_ok (likelihoods PL).
Proof.
  unfold __init__.
  destruct (alleles_returns GT) as [[a1 a2] ->]. simpl.
  destruct (zygosity a1 a2 (a1 ++ "/" ++ a2)) as [[[[h ha] hr] hv] gt].
  destruct (depths AD) as [[rd ad]|e]; simpl; [|reflexivity].
  destruct (try_assign_int_ok DP) as [dc ->]. simpl.
  destruct (try_assign_float_ok GQ) as [gq ->]. simpl.
  destruct (likelihoods PL); reflexivity.
Qed.

(** A comprehension over [int] with an item that is no integer raises
    [ValueError]. *)
Lemma comprehension_int_raises items :
  Exists (fun item => Py.int_opt item = None) items ->
  comprehension Py.int items = Py.Raise Py.ValueError.
Proof.
  induction items as [|x items IH]; intros H; [inversion H|].
  simpl. unfold Py.int at 1.
  destruct (Py.int_opt x) as [n|] eqn:E; simpl; [|reflexivity].
  inversion H as [? ? Hx|? ? Hrest]; subst; [congruence|].
  rewrite (IH Hrest). reflexivity.
Qed.

(** C2.  The decoder guards the conversions of [DP] and [GQ] (l.90-97): a
    token that is no number leaves the attribute unset.  The conversions of
    [PL] (l.100) and of [AD] (l.81-89) are not guarded: a likelihood token
    that is no integer, an [AD] token whose first item starts with a digit
    but is no integer, and an empty [AD] token make [__init__] raise. *)
Theorem malformed_likelihood_raises :
  (exists g,
     __init__ "0/1" ".,." "many" "high" None = Py.Ok g /\
     depth_of_coverage g = None /\ genotype_quality g = None) /\
  __init__ "0/1" ".,." "0" "0" (Some "a") = Py.Raise Py.ValueError /\
  __init__ "0/1" ".,." "0" "0" (Some "0,1.5,3") = Py.Raise Py.ValueError /\
  __init__ "0/1" "1x,2" "0" "0" None = Py.Raise Py.ValueError /\
  __init__ "0/1" "" "0" "0" None = Py.Raise Py.IndexError.
Proof.
  split; [eexists; split; [reflexivity|split; reflexivity]|].
  repeat split; reflexivity.
Qed.

(** C3.  On the token [10,20] the reference depth is the integer 10, and
    the alternative depth stays the last character of the token: l.88 tests
    the character at index 2, here the comma, not the second item. *)
Theorem two_digit_depth_not_converted :
  depths "10,20" = Py.Ok (Count 10, Raw "0") /\
  exists g,
    __init__ "0/1" "10,20" "30" "99" None = Py.Ok g /\
    ref_depth g = Count 10 /\ alt_depth g = Raw "0".
Proof.
  split; [reflexivity|].
  eexists. split; [reflexivity|split; reflexivity].
Qed.

(** On a token of two one-digit items both depths are converted. *)
Lemma one_digit_depths_converted :
  depths "3,4" = Py.Ok (Count 3, Count 4).
Proof. reflexivity. Qed.

End GenotypeSubfields.


(** ** The allele splitter *)

Section SplitterFacts.

Import SplitVariants.

Context {utils : Utils}.

(** [str.split] gives at least one item. *)
Lemma split_cons sep s : exists hd tl, Py.split sep s = hd :: tl.
Proof.
  destruct s as [|c s]; simpl; [eauto|].
  destruct (Ascii.eqb c sep); [eauto|].
  destruct (Py.split sep s); eauto.
Qed.

(** The body of the loop over the alternatives never reaches its [yield]:
    when nothing raised before, reading [build_info_string] does. *)
Lemma split_body_raises vd md n i alternative :
  exists e, split_body vd md n i alternative = Py.Raise e.
Proof.
  unfold split_body.
  destruct (fixed_columns vd i alternative); simpl; [|eauto].
  destruct (getentry (info_dict vd) "info_dict"); simpl; [|eauto].
  destruct (info_loop _ _ _ _ _ _ _); simpl; eauto.
Qed.

(** Whatever the record and the header, the generator yields no record and
    ends with an exception. *)
Lemma split_variants_raises vd md :
  exists e, split_variants vd md = ([], Some e).
Proof.
  unfold split_variants.
  destruct (getitem (columns vd) "ALT") as [alt|e]; simpl; [|eauto].
  destruct (getitem (columns vd) "REF") as [ref|e]; simpl; [|eauto].
  destruct (split_cons "," alt) as (hd & tl & ->). simpl.
  destruct (split_body_raises vd md (NumInt 1) 0 hd) as [e ->]. eauto.
Qed.

(** C6.  No split record is ever produced: for every record and header the
    splitter ends with an exception before its first [yield]; on the record
    [ALT=A,G] without annotations, where two records were to be produced,
    the exception is the [NameError] of l.103. *)
Theorem splitter_yields_no_record :
  (forall vd md, exists e, split_variants vd md = ([], Some e)) /\
  length (Py.split "," "A,G") = 2%nat /\
  split_variants record_two_alternatives None
    = ([], Some (Py.NameError "build_info_string")) /\
  split_variants record_two_alternatives (Some header_empty)
    = ([], Some (Py.NameError "build_info_string")).
Proof.
  split; [apply split_variants_raises|].
  repeat split; vm_compute; reflexivity.
Qed.

(** C7.  On the record [ALT=A,G] with [AF=10,20] declared [Number=A] the
    loop over the annotation keys selects [10] for the first alternative
    and [20] for the second, but the record that was to carry the value is
    never assembled: the splitter ends with the [NameError] of l.103. *)
Theorem per_alt_value_never_delivered :
  (exists st,
     info_loop record_per_alt_annotation [("AF", ["10"; "20"])]
       (Some header_AF_per_alt) 0 "A" (initial_state (NumInt 1)) ["AF"]
     = Py.Ok st /\
     new_info_dict st = [("AF", ["10"])]) /\
  (exists st,
     info_loop record_per_alt_annotation [("AF", ["10"; "20"])]
       (Some header_AF_per_alt) 1 "G" (initial_state (NumStr "A")) ["AF"]
     = Py.Ok st /\
     new_info_dict st = [("AF", ["20"])]) /\
  split_variants record_per_alt_annotation (Some header_AF_per_alt)
    = ([], Some (Py.NameError "build_info_string")).
Proof.
  split; [|split].
  - eexists. split; [vm_compute; reflexivity|reflexivity].
  - eexists. split; [vm_compute; reflexivity|reflexivity].
  - vm_compute. reflexivity.
Qed.

(** The body of the loop over the individuals never completes: when
    nothing raised before, reading [Genotype] does (l.113). *)
Lemma individual_step_raises vd i acc individual :
  Py.is_ok (individual_step vd i acc individual) = false.
Proof.
  unfold individual_step. destruct acc as [variant genotype_dict].
  destruct (getitem (columns vd) individual); simpl; [|reflexivity].
  destruct (getitem variant "FORMAT"); simpl; [|reflexivity].
  destruct (split_genotype _ _ _); reflexivity.
Qed.

(** C9.  On a record with an individual whose call is [1/2] the splitter
    ends with the [NameError] of l.103, before the loop that re-encodes and
    decodes the calls of the individuals (l.105-113); and the body of that
    loop, had it been reached, completes for no alternative. *)
Theorem genotypes_never_rederived :
  genotypes record_one_individual <> None /\
  columns record_one_individual !! "father" = Some "1/2" /\
  split_variants record_one_individual (Some header_empty)
    = ([], Some (Py.NameError "build_info_string")) /\
  forall i acc,
    Py.is_ok (individual_step record_one_individual i acc "father") = false.
Proof.
  split; [discriminate|]. split; [vm_compute; reflexivity|].
  split; [vm_compute; reflexivity|].
  intros i acc. apply individual_step_raises.
Qed.

End SplitterFacts.

Section SchemaFacts.

Import SplitVariants.

Context {utils : Utils}.





End SchemaFacts.



(** ** The stream driver *)

Section DriverFacts.

Import VCFParser.

Context {utils : Utils}.

(** A line with fewer than 8 columns adds nothing and raises nothing. *)
Lemma decode_line_short self line :
  enough_columns line = false -> decode_line self line = Py.Ok [].
Proof. intros H. unfold decode_line. rewrite H. reflexivity. Qed.

(** A record that is not to be split is added as the decoder gave it. *)
Lemma records_of_single self v :
  (split_variants self = true -> single_alternative v) ->
  records_of self v = Py.Ok [v].
Proof.
  intros Hsingle. unfold records_of, must_split.
  destruct (split_variants self); [|reflexivity].
  destruct (Hsingle eq_refl) as (alt & Halt & Hlen).
  unfold getitem. rewrite Halt. simpl. rewrite Hlen. reflexivity.
Qed.

Lemma decode_line_single self line v :
  enough_columns line = true ->
  format_variant line None = Py.Ok v ->
  (split_variants self = true -> single_alternative v) ->
  decode_line self line = Py.Ok [v].
Proof.
  intros Hcols Hv Hsingle. unfold decode_line. rewrite Hcols, Hv. simpl.
  now apply records_of_single.
Qed.

(** One turn of the loop, past the first, on a line with fewer than 8
    columns. *)
Lemma turns_short_line self line rest :
  full line = false ->
  turns self false (line :: rest) = turns self false rest.
Proof.
  intros Hshort. simpl. unfold line_variants. simpl.
  rewrite (decode_line_short self (Py.rstrip line) Hshort). simpl.
  destruct (turns self false rest). reflexivity.
Qed.

(** One turn of the loop, past the first, on a line with 8 columns or
    more whose record is not to be split. *)
Lemma turns_full_line self line rest v :
  full line = true ->
  format_variant (Py.rstrip line) None = Py.Ok v ->
  (split_variants self = true -> single_alternative v) ->
  turns self false (line :: rest)
  = (v :: fst (turns self false rest), snd (turns self false rest)).
Proof.
  intros Hfull Hv Hsingle. simpl. unfold line_variants. simpl.
  rewrite (decode_line_single self (Py.rstrip line) v Hfull Hv Hsingle).
  simpl. destruct (turns self false rest). reflexivity.
Qed.

(** C4, as amended.  Once [beginning] is false, a line with fewer than 8
    tab-separated columns is skipped: the decoder is not called on it, the
    driver yields nothing for it, raises nothing, and goes on with the rest
    of the stream. *)
Theorem short_line_skipped self line rest :
  beginning self = false ->
  full line = false ->
  decode_line self (Py.rstrip line) = Py.Ok [] /\
  __iter__ self (line :: rest) = __iter__ self rest.
Proof.
  intros Hb Hshort. split.
  - now apply decode_line_short.
  - unfold __iter__. rewrite Hb. now apply turns_short_line.
Qed.

(** What the driver yields by design.  Once [beginning] is false, the
    driver yields, in the order of the stream, the record the decoder
    gives for each line with 8 tab-separated columns or more, unchanged,
    and nothing for the other lines, when splitting is disabled or every
    record has a single alternative allele. *)
Theorem one_record_per_full_line self lines records :
  beginning self = false ->
  Forall2 (fun line v => format_variant (Py.rstrip line) None = Py.Ok v)
    (List.filter full lines) records ->
  (split_variants self = true -> Forall single_alternative records) ->
  __iter__ self lines = (records, None).
Proof.
  intros Hb. unfold __iter__. rewrite Hb. clear Hb. revert records.
  induction lines as [|line lines IH]; intros records Hdec Hsingle.
  - simpl in Hdec. inversion Hdec. reflexivity.
  - simpl in Hdec. destruct (full line) eqn:Hfull.
    + inversion Hdec as [|l v ls vs Hv Hrest]; subst.
      rewrite (turns_full_line self line lines v Hfull Hv).
      * rewrite (IH vs Hrest); [reflexivity|].
        intros Hs. specialize (Hsingle Hs). now inversion Hsingle.
      * intros Hs. specialize (Hsingle Hs). now inversion Hsingle.
    + rewrite (turns_short_line self line lines Hfull).
      now apply IH.
Qed.

End DriverFacts.

Lemma short_line_skipped_witness :
  let utils := utils_decoding record_one_alternative in
  VCFParser.decode_line (parser_running true) (Py.rstrip short_line)
  = Py.Ok [] /\
  VCFParser.__iter__ (parser_running true) [short_line; full_line]
  = VCFParser.__iter__ (parser_running true) [full_line].
Proof.
  apply (short_line_skipped (utils := utils_decoding record_one_alternative)
           (parser_running true) short_line [full_line]).
  - reflexivity.
  - vm_compute. reflexivity.
Defined.

(** C4, as stated, fails: a line of two columns is passed over in silence
    by a parser past its first turn, with splitting on or off; the stream
    ends without a record and without an exception.  On a parser as
    [__init__] leaves it the first line ends the stream with the
    [NameError] of l.150, whether it has two columns or eight. *)
Lemma short_line_no_error :
  let utils := utils_decoding record_one_alternative in
  VCFParser.full short_line = false /\
  VCFParser.__iter__ (parser_running false) [short_line] = ([], None) /\
  VCFParser.__iter__ (parser_running true) [short_line] = ([], None) /\
  VCFParser.__iter__ (parser_fresh false) [short_line]
    = ([], Some (Py.NameError "next_line")) /\
  VCFParser.__iter__ (parser_fresh false) [full_line]
    = ([], Some (Py.NameError "next_line")).
Proof. cbv zeta. repeat split; vm_compute; reflexivity. Qed.

Lemma one_record_per_full_line_witness :
  let utils := utils_decoding record_one_alternative in
  VCFParser.__iter__ (parser_running true) [full_line; short_line; full_line]
  = ([record_one_alternative; record_one_alternative], None).
Proof.
  apply (one_record_per_full_line
           (utils := utils_decoding record_one_alternative)
           (parser_running true) [full_line; short_line; full_line]
           [record_one_alternative; record_one_alternative]).
  - reflexivity.
  - assert (Hf : List.filter VCFParser.full [full_line; short_line; full_line]
                 = [full_line; full_line]) by (vm_compute; reflexivity).
    rewrite Hf. repeat constructor.
  - intros _. repeat constructor; exists "A"; split; reflexivity.
Defined.

(** C5.  The driver does not yield one record per data line.  A parser as
    [__init__] leaves it ends at the first line it iterates over with the
    [NameError] of l.150, whatever the line and with splitting on or off:
    constructed on a stream of two header lines and three data lines of
    eight columns, with splitting disabled, it yields no record where three
    were to be yielded.  Past the first turn, with splitting enabled, a
    line whose record has the two alternatives [A,G] yields no record where
    two were to be yielded: the splitter ends with the [NameError] of
    split_variants.py l.103. *)
Theorem data_lines_not_yielded :
  (forall (utils : Utils) split md inds hdr vep line rest,
     VCFParser.__iter__
       {| VCFParser.split_variants := split;
          VCFParser.metadata := md;
          VCFParser.individuals := inds;
          VCFParser.header := hdr;
          VCFParser.vep_header := vep;
          VCFParser.beginning := true |}
       (line :: rest)
     = ([], Some (Py.NameError "next_line"))) /\
  (let hp := recording_header in
   let utils := utils_decoding record_one_alternative in
   VCFParser.parse false
     [meta_line; column_line; full_line; full_line; full_line]
   = ([], Some (Py.NameError "next_line"))) /\
  (let utils := utils_decoding record_two_alternatives in
   length (Py.split "," "A,G") = 2%nat /\
   VCFParser.__iter__ (parser_running true) [full_line]
   = ([], Some (Py.NameError "build_info_string"))).
Proof.
  split; [|split].
  - intros. reflexivity.
  - vm_compute. reflexivity.
  - cbv zeta. split; vm_compute; reflexivity.
Qed.

(** ** Further properties of the three functions *)

Section FurtherGenotype.

Import Genotype.

(** X1.  Whether the decoder returns depends on the tokens [AD] and [PL]
    alone: the tokens [GT], [DP] and [GQ] never make it raise. *)
Theorem init_raises_only_on_AD_or_PL GT AD DP GQ PL :
  Py.is_ok (__init__ GT AD DP GQ PL)
  = Py.is_ok (depths AD) && Py.is_ok (likelihoods PL).
Proof. apply init_returns_iff. Qed.



(** X7.  A likelihood token with an item that is no integer makes the
    decoder raise [ValueError], whatever the other tokens, as soon as the
    depths of [AD] could be read. *)
Theorem non_integer_likelihood_raises GT AD DP GQ pl :
  pl <> "" ->
  Exists (fun item => Py.int_opt item = None) (Py.split "," pl) ->
  Py.is_ok (depths AD) = true ->
  __init__ GT AD DP GQ (Some pl) = Py.Raise Py.ValueError.
Proof.
  intros Hne Hbad Had. unfold __init__.
  destruct (alleles_returns GT) as [[a1 a2] ->]. simpl.
  destruct (zygosity a1 a2 (a1 ++ "/" ++ a2)) as [[[[h ha] hr] hv] gt].
  destruct (depths AD) as [[rd ad]|e]; simpl in *; [|discriminate].
  destruct (try_assign_int_ok DP) as [dc ->]. simpl.
  destruct (try_assign_float_ok GQ) as [gq ->]. simpl.
  unfold likelihoods. destruct pl as [|c pl]; [congruence|].
  rewrite (comprehension_int_raises _ Hbad). reflexivity.
Qed.

Lemma non_integer_likelihood_raises_witness :
  __init__ "0/1" "3,4" "7" "99" (Some "0,ten,100") = Py.Raise Py.ValueError.
Proof.
  apply (non_integer_likelihood_raises "0/1" "3,4" "7" "99" "0,ten,100").
  - discriminate.
  - apply Exists_cons_tl. apply Exists_cons_hd. reflexivity.
  - reflexivity.
Defined.

(** X8.  The alternative depth is an integer exactly when the token has
    more than two characters and the one at index 2 is a digit; it is then
    the integer of the second comma-separated item.  Otherwise it is the
    last character of the token.  The test looks at index 2, not at the
    second item. *)
Theorem alt_depth_converted_iff AD r a :
  depths AD = Py.Ok (r, a) ->
  match a with
  | Count n =>
      Py.len AD > 2 /\
      (exists c, Py.index AD 2 = Py.Ok c /\ Py.isdigit c = true) /\
      exists x,
        nth_error (Py.split "," AD) 1 = Some x /\ Py.int_opt x = Some n
  | Raw token =>
      Py.last AD = Py.Ok token /\
      (Py.len AD <= 2 \/
       exists c, Py.index AD 2 = Py.Ok c /\ Py.isdigit c = false)
  end.
Proof.
  unfold depths. intros H.
  destruct (Py.index AD 0) as [r0|e]; simpl in H; [|discriminate].
  destruct (Py.last AD) as [a0|e]; simpl in H; [|discriminate].
  destruct (Py.len AD >? 2) eqn:Elen.
  - match type of H with
    | Py.bind ?x _ = _ => destruct x as [ref|e]; simpl in H; [|discriminate]
    end.
    destruct (Py.index AD 2) as [c|e] eqn:Ec; simpl in H; [|discriminate].
    destruct (Py.isdigit c) eqn:Ed.
    + unfold Py.item, Py.int in H.
      destruct (nth_error (Py.split "," AD) 1) as [x|] eqn:Ex; simpl in H;
        [|discriminate].
      destruct (Py.int_opt x) as [n|] eqn:En; simpl in H; [|discriminate].
      injection H as <- <-. split; [lia|]. split; [eauto|eauto].
    + simpl in H. injection H as <- <-. split; [reflexivity|]. right. eauto.
  - injection H as <- <-. split; [reflexivity|]. left. lia.
Qed.

Lemma alt_depth_converted_iff_witness :
  (Py.len "100,5" > 2 /\
   (exists c, Py.index "100,5" 2 = Py.Ok c /\ Py.isdigit c = true) /\
   exists x,
     nth_error (Py.split "," "100,5") 1 = Some x /\ Py.int_opt x = Some 5) /\
  (Py.last "10,20" = Py.Ok "0" /\
   (Py.len "10,20" <= 2 \/
    exists c, Py.index "10,20" 2 = Py.Ok c /\ Py.isdigit c = false)).
Proof.
  split.
  - apply (alt_depth_converted_iff "100,5" (Count 100) (Count 5)).
    reflexivity.
  - apply (alt_depth_converted_iff "10,20" (Count 10) (Raw "0")).
    reflexivity.
Defined.

End FurtherGenotype.

Section FurtherSplitter.

Import SplitVariants.

(** An annotation with one value per alternative allele: the value
    at the index of the alternative, else the first value when the list is
    too short, else [IndexError] when the list is empty. *)
Theorem per_alt_branch_selects values i :
  per_alt_branch values i =
  match nth_error values i, values with
  | Some x, _ => Py.Ok [x]
  | None, x0 :: _ => Py.Ok [x0]
  | None, [] => Py.Raise Py.IndexError
  end.
Proof.
  unfold per_alt_branch, Py.item.
  destruct (nth_error values i) as [x|]; simpl; [reflexivity|].
  destruct values; reflexivity.
Qed.

(** An annotation with one value for the reference and one per
    alternative allele: the first value and the value at the index of the
    alternative plus one; the key is left out when that value is missing,
    and an empty list raises [IndexError]. *)
Theorem per_allele_branch_selects values i :
  per_allele_branch values i =
  match values with
  | [] => Py.Raise Py.IndexError
  | reference_value :: _ =>
      match nth_error values (i + 1) with
      | Some x => Py.Ok (Some [reference_value; x])
      | None => Py.Ok None
      end
  end.
Proof.
  unfold per_allele_branch, Py.item.
  destruct values as [|r values]; [reflexivity|]. simpl.
  destruct (nth_error (r :: values) (i + 1)); reflexivity.
Qed.

(** X9.  The fixed columns of the record under construction for an
    alternative: [CHROM], [POS], [REF], [QUAL] and [FILTER] are those of the
    source record, [ALT] is the alternative alone, and [ID] is the item of
    the [;]-separated identifiers at the index of the alternative, or the
    whole identifier when there are too few. *)
Theorem fixed_columns_copied vd i alternative cols :
  fixed_columns vd i alternative = Py.Ok cols ->
  cols !! "CHROM" = columns vd !! "CHROM" /\
  cols !! "POS" = columns vd !! "POS" /\
  cols !! "REF" = columns vd !! "REF" /\
  cols !! "QUAL" = columns vd !! "QUAL" /\
  cols !! "FILTER" = columns vd !! "FILTER" /\
  cols !! "FORMAT" = columns vd !! "FORMAT" /\
  cols !! "ALT" = Some alternative /\
  exists ids,
    columns vd !! "ID" = Some ids /\
    cols !! "ID" = Some (match nth_error (Py.split ";" ids) i with
                         | Some x => x
                         | None => ids
                         end).
Proof.
  unfold fixed_columns, getitem. intros H.
  destruct (columns vd !! "CHROM") as [chrom|]; simpl in H; [|discriminate].
  destruct (columns vd !! "POS") as [pos|]; simpl in H; [|discriminate].
  destruct (columns vd !! "ID") as [ids|]; simpl in H; [|discriminate].
  assert (Hid : Py.except_IndexError (Py.item (Py.split ";" ids) i) (Py.Ok ids)
                = Py.Ok (match nth_error (Py.split ";" ids) i with
                         | Some x => x | None => ids end)).
  { unfold Py.item. destruct (nth_error (Py.split ";" ids) i); reflexivity. }
  rewrite Hid in H. simpl in H. clear Hid.
  destruct (columns vd !! "REF") as [ref|]; simpl in H; [|discriminate].
  destruct (columns vd !! "QUAL") as [qual|]; simpl in H; [|discriminate].
  destruct (columns vd !! "FILTER") as [filter|]; simpl in H; [|discriminate].
  destruct (columns vd !! "FORMAT") as [format|];
    injection H as <-;
    (repeat split; [..|exists ids; split; [reflexivity|]]);
    by simplify_map_eq.
Qed.

Lemma fixed_columns_copied_witness :
  exists cols,
    fixed_columns record_two_alternatives 1 "G" = Py.Ok cols /\
    cols !! "CHROM" = Some "1" /\ cols !! "POS" = Some "100" /\
    cols !! "REF" = Some "T" /\ cols !! "ALT" = Some "G" /\
    cols !! "ID" = Some "rs2".
Proof.
  assert (Hr : exists cols,
             fixed_columns record_two_alternatives 1 "G" = Py.Ok cols)
    by (vm_compute; eexists; reflexivity).
  destruct Hr as [cols Hr]. exists cols. split; [exact Hr|].
  destruct (fixed_columns_copied record_two_alternatives 1 "G" cols Hr)
    as (H1 & H2 & H3 & _ & _ & _ & H4 & ids & Hids & H5).
  assert (Hid : columns record_two_alternatives !! "ID" = Some "rs1;rs2")
    by (vm_compute; reflexivity).
  rewrite Hid in Hids. injection Hids as <-.
  rewrite H1, H2, H3, H4, H5.
  repeat split; vm_compute; reflexivity.
Defined.

End FurtherSplitter.

Section FurtherDriver.

Import VCFParser.

Context {utils : Utils}.

(** X16.  A parser as [__init__] leaves it, with [beginning] true, yields no
    record at all: on the first line of the stream the generator ends with
    the [NameError] of l.150. *)
Theorem first_turn_raises self line rest :
  beginning self = true ->
  __iter__ self (line :: rest) = ([], Some (Py.NameError "next_line")).
Proof. intros Hb. unfold __iter__. rewrite Hb. reflexivity. Qed.

(** X17.  Once [beginning] is false, a line with 8 columns or more whose
    record has two alternatives or more ends the stream when splitting is
    enabled: the exception of the splitter leaves the driver and no record
    of that line is yielded. *)
Theorem split_line_raises self line rest v alt :
  beginning self = false ->
  split_variants self = true ->
  full line = true ->
  format_variant (Py.rstrip line) None = Py.Ok v ->
  columns v !! "ALT" = Some alt ->
  (1 < length (Py.split "," alt))%nat ->
  exists e, __iter__ self (line :: rest) = ([], Some e).
Proof.
  intros Hb Hs Hfull Hv Halt Hlen. unfold __iter__. rewrite Hb.
  simpl. unfold line_variants. simpl.
  unfold decode_line. unfold full in Hfull. rewrite Hfull, Hv. simpl.
  unfold records_of, must_split, getitem. rewrite Hs, Halt. simpl.
  apply Nat.ltb_lt in Hlen. rewrite Hlen. simpl.
  destruct (split_variants_raises v (metadata self)) as [e ->].
  exists e. reflexivity.
Qed.

End FurtherDriver.

Lemma first_turn_raises_witness :
  let utils := utils_decoding record_one_alternative in
  VCFParser.__iter__ (parser_fresh false) [full_line; full_line]
  = ([], Some (Py.NameError "next_line")).
Proof.
  apply (first_turn_raises (utils := utils_decoding record_one_alternative)
           (parser_fresh false) full_line [full_line]).
  reflexivity.
Defined.

Lemma split_line_raises_witness :
  let utils := utils_decoding record_two_alternatives in
  exists e,
    VCFParser.__iter__ (parser_running true) [full_line; full_line]
    = ([], Some e).
Proof.
  apply (split_line_raises (utils := utils_decoding record_two_alternatives)
           (parser_running true) full_line [full_line]
           record_two_alternatives "A,G").
  - reflexivity.
  - reflexivity.
  - vm_compute. reflexivity.
  - reflexivity.
  - vm_compute. reflexivity.
  - vm_compute. lia.
Defined.

(** ** More of the genotype decoder *)

Section MoreGenotype.

Import Genotype.

Lemma last_app_char s c : Py.last (s ++ String c "") = Py.Ok (String c "").
Proof.
  induction s as [|d s IH]; [reflexivity|].
  destruct s as [|e s]; [reflexivity|]. simpl in *. exact IH.
Qed.

Lemma last_single s x : Py.last s = Py.Ok x -> exists c, x = String c "".
Proof.
  induction s as [|d s IH]; [discriminate|].
  destruct s as [|e s]; simpl in *.
  - intros H. injection H as <-. eauto.
  - exact IH.
Qed.

Lemma len_app_char s c : Py.len (s ++ String c "") = Py.len s + 1.
Proof.
  unfold Py.len. induction s as [|d s IH]; [reflexivity|].
  simpl String.length. lia.
Qed.

(** The alleles of a token of three characters or more are its first and
    its last character. *)
Lemma alleles_long c1 mid c2 :
  mid <> "" ->
  alleles (String c1 (mid ++ String c2 ""))
  = Py.Ok (String c1 "", String c2 "").
Proof.
  intros Hmid. unfold alleles.
  assert (Hlen : (Py.len (String c1 (mid ++ String c2 "")) <? 3) = false).
  { apply Z.ltb_ge. destruct mid as [|m mid]; [congruence|].
    pose proof (len_app_char mid c2) as H. unfold Py.len in *.
    simpl String.length. lia. }
  rewrite Hlen. cbn [Py.index Py.bind].
  change (String c1 (mid ++ String c2 "")) with (String c1 mid ++ String c2 "").
  rewrite last_app_char. reflexivity.
Qed.

(** The alleles of a canonical genotype are the alleles it was built
    from. *)
Lemma alleles_canonical c1 c2 :
  alleles (String c1 "" ++ "/" ++ String c2 "")
  = Py.Ok (String c1 "", String c2 "").
Proof. reflexivity. Qed.

(** But for tokens of no or of two characters, the alleles are single
    characters. *)
Lemma alleles_single GT a1 a2 :
  Py.len GT = 1 \/ 3 <= Py.len GT ->
  alleles GT = Py.Ok (a1, a2) ->
  exists c1 c2, a1 = String c1 "" /\ a2 = String c2 "".
Proof.
  intros Hlen. unfold alleles.
  destruct (Py.len GT <? 3) eqn:E.
  - intros H. injection H as <- <-.
    apply Z.ltb_lt in E. destruct Hlen as [Hlen|Hlen]; [|lia].
    destruct GT as [|c [|d GT]]; unfold Py.len in Hlen; simpl in Hlen;
      try lia. eauto.
  - destruct GT as [|c GT]; [discriminate|]. cbn [Py.index Py.bind].
    destruct (Py.last (String c GT)) as [x|e] eqn:El; simpl; [|discriminate].
    intros H. injection H as <- <-.
    destruct (last_single _ _ El) as [c2 ->]. eauto.
Qed.

Lemma string_eqb_cons a s b t :
  String.eqb (String a s) (String b t) = Ascii.eqb a b && String.eqb s t.
Proof. simpl. destruct (Ascii.eqb a b); reflexivity. Qed.

(** The flags of a pair of one-character alleles. *)
Lemma zygosity_chars c1 c2 :
  zygosity (String c1 "") (String c2 "") (String c1 "" ++ "/" ++ String c2 "")
  = (negb (Ascii.eqb c1 c2),
     Ascii.eqb c1 c2 && negb (Ascii.eqb c1 "0") && negb (Ascii.eqb c1 "."),
     Ascii.eqb c1 "0" && Ascii.eqb c2 "0",
     negb (Ascii.eqb c1 "0" && Ascii.eqb c2 "0")
       && negb (Ascii.eqb c1 "." && Ascii.eqb c2 "."),
     negb (Ascii.eqb c1 "." && Ascii.eqb c2 ".")).
Proof.
  unfold zygosity.
  change (String c1 "" ++ "/" ++ String c2 "")
    with (String c1 (String "/" (String c2 ""))).
  rewrite !string_eqb_cons. change (String.eqb "" "") with true.
  repeat match goal with
         | |- context [Ascii.eqb ?a ?b] =>
             destruct (Ascii.eqb_spec a b); subst; try congruence
         end; reflexivity.
Qed.

(** X2.  The classification of a token of three characters or more looks at
    its first and its last character only: these are the two alleles,
    whatever stands between them. The call is not genotyped when both are
    [.], a homozygous reference when both are [0], a homozygous alternative
    when they are equal otherwise, and a heterozygote when they differ. *)
Theorem long_token_classification c1 mid c2 AD DP GQ PL g :
  mid <> "" ->
  __init__ (String c1 (mid ++ String c2 "")) AD DP GQ PL = Py.Ok g ->
  allele_1 g = String c1 "" /\ allele_2 g = String c2 "" /\
  genotyped g = negb (Ascii.eqb c1 "." && Ascii.eqb c2 ".") /\
  homo_ref g = Ascii.eqb c1 "0" && Ascii.eqb c2 "0" /\
  homo_alt g
  = Ascii.eqb c1 c2 && negb (Ascii.eqb c1 "0") && negb (Ascii.eqb c1 ".") /\
  heterozygote g = negb (Ascii.eqb c1 c2).
Proof.
  intros Hmid H.
  destruct (init_inversion _ _ _ _ _ _ H)
    as (a1 & a2 & Ha & H1 & H2 & _ & Hz & _).
  rewrite (alleles_long c1 mid c2 Hmid) in Ha. injection Ha as <- <-.
  rewrite zygosity_chars in Hz. injection Hz as -> -> -> _ ->.
  repeat split; assumption.
Qed.

Lemma long_token_classification_witness :
  exists g,
    __init__ "1/2|3" "5,7" "12" "40" None = Py.Ok g /\
    allele_1 g = "1" /\ allele_2 g = "3" /\
    genotyped g = true /\ homo_ref g = false /\ homo_alt g = false /\
    heterozygote g = true.
Proof.
  eexists. split; [reflexivity|].
  apply (long_token_classification "1" "/2|" "3" "5,7" "12" "40" None).
  - discriminate.
  - reflexivity.
Defined.

(** X4.  [str(g)] is the canonical genotype of [g]; and for a token of one
    character, or of three or more, decoding [str(g)] with the same
    sub-fields gives [g] again, but for [phased]: the separator [|] is not
    kept. *)
Theorem str_decodes_to_same_call GT AD DP GQ PL g :
  Py.len GT = 1 \/ 3 <= Py.len GT ->
  __init__ GT AD DP GQ PL = Py.Ok g ->
  __str__ g = genotype g /\
  __init__ (__str__ g) AD DP GQ PL
  = Py.Ok (with_phased (Py.contains "|" (__str__ g)) g).
Proof.
  intros Hlen H. unfold __init__ in H.
  destruct (alleles GT) as [[a1 a2]|e] eqn:Ea; simpl in H; [|discriminate].
  destruct (alleles_single GT a1 a2 Hlen Ea) as (c1 & c2 & -> & ->).
  destruct (zygosity (String c1 "") (String c2 "") _)
    as [[[[h ha] hr] hv] gt] eqn:Ez.
  destruct (depths AD) as [[rd ad]|e] eqn:Ed; simpl in H; [|discriminate].
  destruct (try_assign Py.int DP) as [dc|e] eqn:Edc; simpl in H;
    [|discriminate].
  destruct (try_assign Py.float GQ) as [gq|e] eqn:Egq; simpl in H;
    [|discriminate].
  destruct (likelihoods PL) as [pl|e] eqn:Epl; simpl in H; [|discriminate].
  injection H as <-. split; [reflexivity|].
  unfold __str__, __init__. cbn [allele_1 allele_2].
  rewrite alleles_canonical. cbn [Py.bind].
  rewrite Ez, Ed. cbn [Py.bind]. rewrite Edc, Egq, Epl. reflexivity.
Qed.

Lemma str_decodes_to_same_call_witness :
  exists g,
    __init__ "1|2" "5,7" "12" "40" (Some "9,0,8") = Py.Ok g /\
    __str__ g = "1/2" /\ phased g = true /\
    __init__ "1/2" "5,7" "12" "40" (Some "9,0,8")
    = Py.Ok (with_phased false g).
Proof.
  eexists. split; [reflexivity|].
  assert (Hlen : Py.len "1|2" = 1 \/ 3 <= Py.len "1|2")
    by (right; unfold Py.len; simpl; lia).
  destruct (str_decodes_to_same_call "1|2" "5,7" "12" "40" (Some "9,0,8") _
              Hlen eq_refl) as [Hs Hd].
  split; [exact Hs|]. split; [reflexivity|]. exact Hd.
Defined.

(** X5.  A token of two characters is not stable under [str]: the instance
    has the whole token for first allele, and decoding its [str] gives an
    instance whose first allele is the first character alone. *)
Theorem two_character_token_truncated c1 c2 AD DP GQ PL g :
  __init__ (String c1 (String c2 "")) AD DP GQ PL = Py.Ok g ->
  allele_1 g = String c1 (String c2 "") /\
  __str__ g = String c1 (String c2 "/.") /\
  exists g',
    __init__ (__str__ g) AD DP GQ PL = Py.Ok g' /\
    allele_1 g' = String c1 "" /\ allele_2 g' = "." /\
    __str__ g' = String c1 "/.".
Proof.
  intros H. unfold __init__ in H. cbn [alleles Py.len String.length] in H.
  simpl in H.
  match type of H with
  | context [zygosity ?a ?b ?c] =>
      destruct (zygosity a b c) as [[[[h ha] hr] hv] gt]
  end.
  destruct (depths AD) as [[rd ad]|e] eqn:Ed; simpl in H; [|discriminate].
  destruct (try_assign Py.int DP) as [dc|e] eqn:Edc; simpl in H;
    [|discriminate].
  destruct (try_assign Py.float GQ) as [gq|e] eqn:Egq; simpl in H;
    [|discriminate].
  destruct (likelihoods PL) as [pl|e] eqn:Epl; simpl in H; [|discriminate].
  injection H as <-. split; [reflexivity|]. split; [reflexivity|].
  unfold __str__, __init__. cbn [allele_1 allele_2].
  assert (Ha : alleles (String c1 (String c2 "/."))
               = Py.Ok (String c1 "", ".")) by reflexivity.
  change (String c1 (String c2 "") ++ "/" ++ ".")
    with (String c1 (String c2 "/.")).
  rewrite Ha. cbn [Py.bind].
  destruct (zygosity (String c1 "") "." _) as [[[[h' ha'] hr'] hv'] gt'].
  rewrite Ed. cbn [Py.bind]. rewrite Edc, Egq, Epl. cbn [Py.bind].
  eexists. split; [reflexivity|]. repeat split.
Qed.

Lemma two_character_token_truncated_witness :
  exists g g',
    __init__ "10" ".,." "0" "0" None = Py.Ok g /\
    allele_1 g = "10" /\ __str__ g = "10/." /\
    __init__ "10/." ".,." "0" "0" None = Py.Ok g' /\
    allele_1 g' = "1" /\ allele_2 g' = "." /\ __str__ g' = "1/.".
Proof.
  destruct (two_character_token_truncated "1" "0" ".,." "0" "0" None _ eq_refl)
    as (H1 & H2 & g' & H3 & H4 & H5 & H6).
  eexists. exists g'. split; [reflexivity|].
  repeat split; assumption.
Defined.



End MoreGenotype.

(** ** More of the allele splitter *)

Section MoreSplitter.

Import SplitVariants.

Context {utils : Utils}.

(** The lookup of a declared key gives the text of its [Number]. *)
Lemma lookup_number_declared md info number current :
  declared md info number ->
  lookup_number (Some md) info current = Py.Ok (NumStr number).
Proof.
  unfold declared, lookup_number, getitem. intros H.
  destruct (extra_info md !! info) as [decl|]; simpl in *; [|discriminate].
  rewrite H. reflexivity.
Qed.

(** X11.  For a key the header declares with [Number=A], one turn of the
    loop over the annotation keys stores the value at the index of the
    alternative, alone; the first value when the record has too few; and
    raises [IndexError] when the record has no value for the key. *)
Theorem declared_per_alt_step vd old md i alternative st info values :
  info <> "" -> info <> "CSQ" ->
  declared md info "A" ->
  odict_get old info = Py.Ok values ->
  info_step vd old (Some md) i alternative st info
  = match nth_error values i, values with
    | Some x, _ => Py.Ok (set_info (with_number (NumStr "A") st) info [x])
    | None, x0 :: _ => Py.Ok (set_info (with_number (NumStr "A") st) info [x0])
    | None, [] => Py.Raise Py.IndexError
    end.
Proof.
  intros Hne Hcsq Hd Hv. unfold info_step.
  apply String.eqb_neq in Hne, Hcsq. rewrite Hne, Hcsq. cbn [negb].
  rewrite (lookup_number_declared md info "A" _ Hd). cbn [Py.bind].
  change (number_is (NumStr "A") "A") with true. cbv iota.
  rewrite Hv. cbn [Py.bind]. rewrite per_alt_branch_selects.
  destruct (nth_error values i); [reflexivity|].
  destruct values; reflexivity.
Qed.

(** X12.  For a key the header declares with [Number=R], one turn of the
    loop stores the value of the reference followed by the value at the
    index of the alternative plus one; it stores nothing under the key when
    the record has too few values, and raises [IndexError] when it has none. *)
Theorem declared_per_allele_step vd old md i alternative st info values :
  info <> "" -> info <> "CSQ" ->
  declared md info "R" ->
  odict_get old info = Py.Ok values ->
  info_step vd old (Some md) i alternative st info
  = match values with
    | [] => Py.Raise Py.IndexError
    | reference_value :: _ =>
        match nth_error values (i + 1) with
        | Some x => Py.Ok (set_info (with_number (NumStr "R") st) info
                             [reference_value; x])
        | None => Py.Ok (with_number (NumStr "R") st)
        end
    end.
Proof.
  intros Hne Hcsq Hd Hv. unfold info_step.
  apply String.eqb_neq in Hne, Hcsq. rewrite Hne, Hcsq. cbn [negb].
  rewrite (lookup_number_declared md info "R" _ Hd). cbn [Py.bind].
  change (number_is (NumStr "R") "A") with false.
  change (number_is (NumStr "R") "R") with true. cbv iota.
  rewrite Hv. cbn [Py.bind]. rewrite per_allele_branch_selects.
  destruct values as [|r values]; [reflexivity|].
  destruct (nth_error (r :: values) (i + 1)); reflexivity.
Qed.

(** *** Insertion-ordered dictionaries *)

Lemma odict_get_set {V} (d : odict V) k v q :
  odict_get (odict_set d k v) q
  = if String.eqb q k then Py.Ok v else odict_get d q.
Proof.
  induction d as [|[k' v'] d IH]; simpl; [reflexivity|].
  destruct (String.eqb_spec k k') as [->|Hkk']; simpl.
  - destruct (String.eqb q k'); reflexivity.
  - rewrite IH. destruct (String.eqb_spec q k') as [->|Hq]; [|reflexivity].
    destruct (String.eqb_spec k' k); [congruence|reflexivity].
Qed.

Lemma odict_get_in {V} (d : odict V) k :
  In k (odict_keys d) -> exists v, odict_get d k = Py.Ok v.
Proof.
  induction d as [|[k' v'] d IH]; simpl; [tauto|].
  intros [->|Hin].
  - rewrite String.eqb_refl. eauto.
  - destruct (String.eqb k k'); eauto.
Qed.

Lemma odict_get_app_fresh {V} (d : odict V) k v rest :
  ~ In k (odict_keys d) -> odict_get (d ++ (k, v) :: rest)%list k = Py.Ok v.
Proof.
  induction d as [|[k' v'] d IH]; simpl; intros Hnot.
  - rewrite String.eqb_refl. reflexivity.
  - destruct (String.eqb_spec k k') as [->|_]; [tauto|]. apply IH. tauto.
Qed.

Lemma odict_set_fresh {V} (d : odict V) k v :
  ~ In k (odict_keys d) -> odict_set d k v = (d ++ [(k, v)])%list.
Proof.
  induction d as [|[k' v'] d IH]; simpl; intros Hnot; [reflexivity|].
  destruct (String.eqb_spec k k') as [->|_]; [tauto|]. rewrite IH; tauto.
Qed.

(** *** Annotations copied whole *)

Lemma copied_whole_step vd old md i alternative st info values :
  info <> "" -> info <> "CSQ" ->
  copied_whole md info -> steady md (number_of_values st) ->
  odict_get old info = Py.Ok values ->
  exists n,
    steady md n /\
    info_step vd old md i alternative st info
    = Py.Ok (set_info (with_number n st) info values).
Proof.
  intros Hne Hcsq Hw Hs Hv. unfold info_step.
  apply String.eqb_neq in Hne, Hcsq. rewrite Hne, Hcsq. cbn [negb].
  destruct md as [md|].
  - destruct Hw as (number & Hd & HA & HR).
    rewrite (lookup_number_declared md info number _ Hd). cbn [Py.bind].
    apply String.eqb_neq in HA, HR. cbn [number_is]. rewrite HA, HR.
    rewrite Hv. exists (NumStr number). split; [exact I|reflexivity].
  - destruct Hs as [HA HR]. cbn [lookup_number Py.bind].
    rewrite HA, HR, Hv. exists (number_of_values st).
    split; [split; assumption|reflexivity].
Qed.

Lemma copied_whole_loop vd md i alternative post :
  forall pre st,
    List.NoDup (odict_keys (pre ++ post)%list) ->
    Forall (fun k => k <> "" /\ k <> "CSQ" /\ copied_whole md k)
      (odict_keys post) ->
    steady md (number_of_values st) ->
    new_info_dict st = pre ->
    exists n,
      info_loop vd (pre ++ post)%list md i alternative st (odict_keys post)
      = Py.Ok {| number_of_values := n;
                 new_info_dict := (pre ++ post)%list;
                 vep_dict := vep_dict st |}.
Proof.
  induction post as [|[k v] post IH]; intros pre st Hnd Hall Hs Hpre.
  - exists (number_of_values st). simpl. rewrite app_nil_r.
    destruct st; simpl in *. subst. reflexivity.
  - simpl in Hall. inversion Hall as [|? ? (Hne & Hcsq & Hw) Hrest]; subst.
    assert (Hfresh : ~ In k (odict_keys (new_info_dict st))).
    { unfold odict_keys in *. rewrite map_app in Hnd. simpl in Hnd.
      apply NoDup_remove_2 in Hnd. intros Hin. apply Hnd.
      apply in_or_app. now left. }
    destruct (copied_whole_step vd (new_info_dict st ++ (k, v) :: post)%list
                md i alternative st k v Hne Hcsq Hw Hs
                (odict_get_app_fresh _ k v post Hfresh)) as (n & Hn & Hstep).
    cbn [odict_keys map fst info_loop]. fold (odict_keys post).
    rewrite Hstep. cbn [Py.bind].
    assert (Heq : (new_info_dict st ++ (k, v) :: post
                   = (new_info_dict st ++ [(k, v)]) ++ post)%list)
      by (rewrite <- app_assoc; reflexivity).
    rewrite Heq in *.
    destruct (IH (new_info_dict st ++ [(k, v)])%list
                (set_info (with_number n st) k v)) as [n' Hloop].
    + exact Hnd.
    + exact Hrest.
    + exact Hn.
    + simpl. now apply odict_set_fresh.
    + exists n'. rewrite Hloop. reflexivity.
Qed.

(** X13.  When no key of a record is empty, [CSQ] or declared with
    [Number=A] or [Number=R] (so, for such keys, whenever no header is
    passed), the loop over the annotation keys rebuilds the annotations of
    the record as they are, for every alternative: same keys, same order,
    same values. *)
Theorem whole_annotations_rebuilt vd old md i alternative :
  List.NoDup (odict_keys old) ->
  Forall (fun k => k <> "" /\ k <> "CSQ" /\ copied_whole md k)
    (odict_keys old) ->
  exists n,
    info_loop vd old md i alternative (initial_state (NumInt 1))
      (odict_keys old)
    = Py.Ok {| number_of_values := n; new_info_dict := old; vep_dict := ∅ |}.
Proof.
  intros Hnd Hall.
  destruct (copied_whole_loop vd md i alternative old []
              (initial_state (NumInt 1)) Hnd Hall) as [n Hn].
  - destruct md; simpl; auto.
  - reflexivity.
  - exists n. exact Hn.
Qed.

(** *** Values are never invented *)

Lemma from_source_set old new k v vs0 :
  from_source old new ->
  odict_get old k = Py.Ok vs0 -> incl v vs0 ->
  from_source old (odict_set new k v).
Proof.
  intros Hinv Hk Hincl q vs Hq Hcsq. rewrite odict_get_set in Hq.
  destruct (String.eqb_spec q k) as [->|_].
  - injection Hq as <-. eauto.
  - now apply Hinv.
Qed.

Lemma from_source_csq old new v :
  from_source old new -> from_source old (odict_set new "CSQ" v).
Proof.
  intros Hinv q vs Hq Hcsq. rewrite odict_get_set in Hq.
  destruct (String.eqb_spec q "CSQ") as [->|_]; [congruence|].
  now apply Hinv.
Qed.

Lemma from_source_step vd old md i alternative st info st' :
  In info (odict_keys old) ->
  from_source old (new_info_dict st) ->
  info_step vd old md i alternative st info = Py.Ok st' ->
  from_source old (new_info_dict st').
Proof.
  intros Hin Hinv. unfold info_step.
  destruct (odict_get_in old info Hin) as [values Hv].
  destruct (String.eqb info ""); cbn [negb].
  2:{ destruct (lookup_number md info (number_of_values st)) as [n|e];
        cbn [Py.bind]; [|discriminate].
      destruct (String.eqb_spec info "CSQ") as [->|Hcsq].
      - unfold csq_branch.
        destruct (Py.bind (getentry (vep_info vd) "vep_info") _)
          as [v|[]]; try discriminate.
        + destruct (build_vep_string v) as [s|[]]; try discriminate;
            intros H; injection H as <-; simpl;
            [now apply from_source_csq|assumption].
        + intros H. injection H as <-. exact Hinv.
      - rewrite Hv. cbn [Py.bind].
        destruct (number_is n "A").
        + rewrite per_alt_branch_selects.
          destruct (nth_error values i) as [x|] eqn:Ex.
          * intros H. injection H as <-. simpl.
            apply (from_source_set old _ info [x] values Hinv Hv).
            intros y [<-|[]]. eapply nth_error_In; eauto.
          * destruct values as [|x0 values]; [discriminate|].
            intros H. injection H as <-. simpl.
            apply (from_source_set old _ info [x0] _ Hinv Hv).
            intros y [<-|[]]. now left.
        + destruct (number_is n "R").
          * rewrite per_allele_branch_selects.
            destruct values as [|r values]; [discriminate|].
            destruct (nth_error (r :: values) (i + 1)) as [x|] eqn:Ex;
              intros H; injection H as <-; simpl; [|assumption].
            apply (from_source_set old _ info [r; x] _ Hinv Hv).
            intros y [<-|[<-|[]]]; [now left|].
            eapply nth_error_In; eauto.
          * intros H. injection H as <-. simpl.
            apply (from_source_set old _ info values values Hinv Hv).
            apply incl_refl. }
  intros H. injection H as <-. simpl.
  apply (from_source_set old _ info [] values Hinv Hv).
  intros y [].
Qed.

Lemma from_source_loop vd old md i alternative keys :
  forall st st',
    incl keys (odict_keys old) ->
    from_source old (new_info_dict st) ->
    info_loop vd old md i alternative st keys = Py.Ok st' ->
    from_source old (new_info_dict st').
Proof.
  induction keys as [|k keys IH]; intros st st' Hincl Hinv H; simpl in H.
  - injection H as <-. exact Hinv.
  - destruct (info_step vd old md i alternative st k) as [st1|e] eqn:Es;
      cbn [Py.bind] in H; [|discriminate].
    apply (IH st1 st'); [|eapply from_source_step; eauto|exact H].
    + intros x Hx. apply Hincl. now right.
    + apply Hincl. now left.
Qed.

(** X14.  The loop over the annotation keys invents no value: whatever the
    header, the cardinalities and the alternative, each value it stores
    under a key other than [CSQ] is one of the values the record has under
    that key. *)
Theorem annotation_values_from_record vd old md i alternative n st :
  info_loop vd old md i alternative (initial_state n) (odict_keys old)
  = Py.Ok st ->
  forall key values,
    odict_get (new_info_dict st) key = Py.Ok values -> key <> "CSQ" ->
    exists source,
      odict_get old key = Py.Ok source /\ incl values source.
Proof.
  intros H.
  apply (from_source_loop vd old md i alternative (odict_keys old)
           (initial_state n) st); [apply incl_refl| |exact H].
  intros k vs Hk. discriminate.
Qed.

(** *** The key [CSQ] *)

(** X15.  When the record has no block of VEP annotations for the
    alternative, the turn of the loop for the key [CSQ] stores nothing: the
    key is left out of the annotations under construction, without an
    exception, and the values the record has under [CSQ] are not copied. *)
Theorem csq_without_block_left_out vd old md i alternative st :
  csq_declared md ->
  vep_info vd ≫= (fun blocks => blocks !! alternative) = None ->
  exists n,
    info_step vd old md i alternative st "CSQ" = Py.Ok (with_number n st).
Proof.
  intros Hd Hnone. unfold info_step.
  change (String.eqb "CSQ" "") with false.
  change (String.eqb "CSQ" "CSQ") with true. cbn [negb].
  assert (Hl : exists n,
             lookup_number md "CSQ" (number_of_values st) = Py.Ok n).
  { destruct md as [md|]; [|simpl; eauto].
    destruct Hd as [number Hd].
    rewrite (lookup_number_declared md "CSQ" number _ Hd). eauto. }
  destruct Hl as [n ->]. cbn [Py.bind]. exists n.
  unfold csq_branch, getentry, getitem.
  destruct (vep_info vd) as [blocks|]; simpl in *; [|reflexivity].
  rewrite Hnone. reflexivity.
Qed.

(** *** Missing keys *)

(** X10.  A record that lacks one of the keys [ALT], [REF], [CHROM], [POS],
    [ID], [QUAL], [FILTER] and [info_dict] makes the splitter end with the
    [KeyError] of the first of them it lacks, in that order, without a
    record; the key [FORMAT] may be absent. *)
Theorem missing_key_raises vd md key :
  first_missing vd = Some key ->
  split_variants vd md = ([], Some (Py.KeyError key)).
Proof.
  unfold first_missing, required_columns. cbn [List.find]. intros H.
  unfold split_variants, getitem.
  destruct (columns vd !! "ALT") as [alt|] eqn:EALT; cbn [Py.bind];
    [|injection H as <-; reflexivity].
  destruct (columns vd !! "REF") as [ref|] eqn:EREF; cbn [Py.bind];
    [|injection H as <-; reflexivity].
  destruct (split_cons "," alt) as (hd & tl & ->). cbn [split_loop].
  assert (Hb : split_body vd md (NumInt 1) 0 hd
               = Py.Raise (Py.KeyError key)); [|rewrite Hb; reflexivity].
  unfold split_body, fixed_columns, getitem.
  destruct (columns vd !! "CHROM") as [chrom|]; cbn [Py.bind];
    [|injection H as <-; reflexivity].
  destruct (columns vd !! "POS") as [pos|]; cbn [Py.bind];
    [|injection H as <-; reflexivity].
  destruct (columns vd !! "ID") as [ids|]; cbn [Py.bind];
    [|injection H as <-; reflexivity].
  unfold Py.item.
  destruct (nth_error (Py.split ";" ids) 0); cbn [Py.except_IndexError Py.bind];
    rewrite EREF; cbn [Py.bind];
    (destruct (columns vd !! "QUAL") as [qual|]; cbn [Py.bind];
     [|injection H as <-; reflexivity]);
    (destruct (columns vd !! "FILTER") as [filter|]; cbn [Py.bind];
     [|injection H as <-; reflexivity]);
    destruct (columns vd !! "FORMAT"); cbn [Py.bind];
    (destruct (info_dict vd); [discriminate|]);
    injection H as <-; reflexivity.
Qed.

End MoreSplitter.

Lemma declared_per_alt_step_witness :
  let utils := utils_decoding record_one_alternative in
  SplitVariants.info_step record_three_keys
    [("DP", ["7"]); ("AF", ["10"; "20"]); ("AD", ["1"; "2"; "3"])]
    (Some header_three_keys) 1 "G"
    (SplitVariants.initial_state (SplitVariants.NumInt 1)) "AF"
  = Py.Ok {| SplitVariants.number_of_values := SplitVariants.NumStr "A";
             SplitVariants.new_info_dict := [("AF", ["20"])];
             SplitVariants.vep_dict := ∅ |}.
Proof.
  apply (declared_per_alt_step (utils := utils_decoding record_one_alternative)
           record_three_keys
           [("DP", ["7"]); ("AF", ["10"; "20"]); ("AD", ["1"; "2"; "3"])]
           header_three_keys 1 "G"
           (SplitVariants.initial_state (SplitVariants.NumInt 1)) "AF"
           ["10"; "20"]).
  - discriminate.
  - discriminate.
  - vm_compute. reflexivity.
  - reflexivity.
Defined.

Lemma declared_per_allele_step_witness :
  let utils := utils_decoding record_one_alternative in
  SplitVariants.info_step record_three_keys
    [("DP", ["7"]); ("AF", ["10"; "20"]); ("AD", ["1"; "2"; "3"])]
    (Some header_three_keys) 1 "G"
    (SplitVariants.initial_state (SplitVariants.NumInt 1)) "AD"
  = Py.Ok {| SplitVariants.number_of_values := SplitVariants.NumStr "R";
             SplitVariants.new_info_dict := [("AD", ["1"; "3"])];
             SplitVariants.vep_dict := ∅ |}.
Proof.
  apply (declared_per_allele_step
           (utils := utils_decoding record_one_alternative)
           record_three_keys
           [("DP", ["7"]); ("AF", ["10"; "20"]); ("AD", ["1"; "2"; "3"])]
           header_three_keys 1 "G"
           (SplitVariants.initial_state (SplitVariants.NumInt 1)) "AD"
           ["1"; "2"; "3"]).
  - discriminate.
  - discriminate.
  - vm_compute. reflexivity.
  - reflexivity.
Defined.

Lemma whole_annotations_rebuilt_witness :
  let utils := utils_decoding record_one_alternative in
  exists n,
    SplitVariants.info_loop record_three_keys
      [("DP", ["7"]); ("AF", ["10"; "20"]); ("AD", ["1"; "2"; "3"])]
      None 1 "G" (SplitVariants.initial_state (SplitVariants.NumInt 1))
      ["DP"; "AF"; "AD"]
    = Py.Ok {| SplitVariants.number_of_values := n;
               SplitVariants.new_info_dict :=
                 [("DP", ["7"]); ("AF", ["10"; "20"]); ("AD", ["1"; "2"; "3"])];
               SplitVariants.vep_dict := ∅ |}.
Proof.
  apply (whole_annotations_rebuilt
           (utils := utils_decoding record_one_alternative)
           record_three_keys
           [("DP", ["7"]); ("AF", ["10"; "20"]); ("AD", ["1"; "2"; "3"])]
           None 1 "G").
  - repeat constructor; simpl; intuition discriminate.
  - repeat constructor; discriminate.
Defined.

Lemma annotation_values_from_record_witness :
  let utils := utils_decoding record_one_alternative in
  exists source,
    odict_get [("DP", ["7"]); ("AF", ["10"; "20"]); ("AD", ["1"; "2"; "3"])]
      "AD" = Py.Ok source /\ incl ["1"; "3"] source.
Proof.
  apply (annotation_values_from_record
           (utils := utils_decoding record_one_alternative)
           record_three_keys
           [("DP", ["7"]); ("AF", ["10"; "20"]); ("AD", ["1"; "2"; "3"])]
           (Some header_three_keys) 1 "G" (SplitVariants.NumInt 1)
           {| SplitVariants.number_of_values := SplitVariants.NumStr "R";
              SplitVariants.new_info_dict :=
                [("DP", ["7"]); ("AF", ["20"]); ("AD", ["1"; "3"])];
              SplitVariants.vep_dict := ∅ |}).
  - vm_compute. reflexivity.
  - reflexivity.
  - discriminate.
Defined.

Lemma csq_without_block_left_out_witness :
  let utils := utils_decoding record_one_alternative in
  exists n,
    SplitVariants.info_step record_three_keys [("CSQ", ["G|missense"])]
      None 1 "G" (SplitVariants.initial_state (SplitVariants.NumInt 1)) "CSQ"
    = Py.Ok (with_number n
               (SplitVariants.initial_state (SplitVariants.NumInt 1))).
Proof.
  apply (csq_without_block_left_out
           (utils := utils_decoding record_one_alternative)
           record_three_keys [("CSQ", ["G|missense"])] None 1 "G"
           (SplitVariants.initial_state (SplitVariants.NumInt 1))).
  - exact I.
  - reflexivity.
Defined.

Lemma missing_key_raises_witness :
  let utils := utils_decoding record_one_alternative in
  SplitVariants.split_variants record_without_QUAL (Some header_empty)
  = ([], Some (Py.KeyError "QUAL")).
Proof.
  apply (missing_key_raises (utils := utils_decoding record_one_alternative)
           record_without_QUAL (Some header_empty) "QUAL").
  vm_compute. reflexivity.
Defined.

(** ** More of the stream driver *)

Section MoreDriver.

Import VCFParser.

Context {utils : Utils}.

(** The turns over a stream in two parts, past the first turn. *)
Lemma turns_app self a b :
  turns self false (a ++ b)
  = match turns self false a with
    | (ra, None) =>
        ((ra ++ fst (turns self false b))%list, snd (turns self false b))
    | (ra, Some e) => (ra, Some e)
    end.
Proof.
  induction a as [|line a IH]; simpl.
  - destruct (turns self false b); reflexivity.
  - destruct (line_variants self false line) as [variants|e]; [|reflexivity].
    rewrite IH. destruct (turns self false a) as [ra [e|]]; simpl;
      [reflexivity|]. rewrite app_assoc. reflexivity.
Qed.

(** X18.  Past its first turn the driver keeps nothing from one line to the
    next: the records of a stream in two parts are the records of the first
    part followed by those of the second, and an exception in the first part
    ends the stream there. *)
Theorem iteration_composes self a b :
  beginning self = false ->
  __iter__ self (a ++ b)
  = match __iter__ self a with
    | (ra, None) =>
        ((ra ++ fst (__iter__ self b))%list, snd (__iter__ self b))
    | (ra, Some e) => (ra, Some e)
    end.
Proof. intros Hb. unfold __iter__. rewrite Hb. apply turns_app. Qed.

(** X19.  An exception of the decoder on a line of 8 columns or more ends
    the stream at that line: the records of the lines before it have been
    yielded, the lines after it are not read. *)
Theorem decoder_error_ends_stream self before line after records e :
  beginning self = false ->
  __iter__ self before = (records, None) ->
  full line = true ->
  format_variant (Py.rstrip line) None = Py.Raise e ->
  __iter__ self (before ++ line :: after) = (records, Some e).
Proof.
  unfold __iter__. intros Hb Hbefore Hfull He. rewrite Hb in *.
  rewrite turns_app, Hbefore. simpl. unfold line_variants. simpl.
  unfold decode_line. unfold full in Hfull. rewrite Hfull, He. simpl.
  rewrite app_nil_r. reflexivity.
Qed.

(** *** Trailing whitespace *)

Lemma lstrip_with_blank sp ws l :
  Forall (fun c => sp c = true) ws ->
  Py.lstrip_with sp (ws ++ l)%list = Py.lstrip_with sp l.
Proof.
  induction ws as [|c ws IH]; intros H; [reflexivity|].
  inversion H as [|? ? Hc Hws]; subst. simpl. rewrite Hc. now apply IH.
Qed.

Lemma rstrip_with_blank sp l ws :
  Forall (fun c => sp c = true) ws ->
  Py.rstrip_with sp (l ++ ws)%list = Py.rstrip_with sp l.
Proof.
  intros H. unfold Py.rstrip_with. rewrite rev_app_distr.
  rewrite lstrip_with_blank; [reflexivity|]. now apply List.Forall_rev.
Qed.

Lemma list_ascii_of_string_append s t :
  list_ascii_of_string (s ++ t)
  = (list_ascii_of_string s ++ list_ascii_of_string t)%list.
Proof. induction s as [|c s IH]; simpl; [reflexivity|]. now rewrite IH. Qed.

Lemma rstrip_blank line ws :
  blank ws -> Py.rstrip (line ++ ws) = Py.rstrip line.
Proof.
  intros H. unfold Py.rstrip. rewrite list_ascii_of_string_append.
  now rewrite rstrip_with_blank.
Qed.

(** X20.  Whitespace at the end of a line, tabs included, is removed before
    the columns are counted: a line followed by whitespace is full when the
    line is, and the driver yields for it what it yields for the line; so
    empty columns at the end of a line do not count towards the 8. *)
Theorem trailing_whitespace_ignored self line ws rest :
  blank ws ->
  full (line ++ ws) = full line /\
  __iter__ self ((line ++ ws) :: rest) = __iter__ self (line :: rest).
Proof.
  intros H. unfold full, __iter__. simpl. unfold line_variants.
  rewrite (rstrip_blank line ws H). split; reflexivity.
Qed.

End MoreDriver.

Lemma iteration_composes_witness :
  let utils := utils_decoding record_one_alternative in
  VCFParser.__iter__ (parser_running true)
    ([full_line; short_line] ++ [full_line])
  = ([record_one_alternative; record_one_alternative], None).
Proof.
  assert (Ha : let utils := utils_decoding record_one_alternative in
               VCFParser.__iter__ (parser_running true) [full_line; short_line]
               = ([record_one_alternative], None))
    by (vm_compute; reflexivity).
  assert (Hb : let utils := utils_decoding record_one_alternative in
               VCFParser.__iter__ (parser_running true) [full_line]
               = ([record_one_alternative], None))
    by (vm_compute; reflexivity).
  cbv zeta in *.
  rewrite (iteration_composes (utils := utils_decoding record_one_alternative)
             (parser_running true) [full_line; short_line] [full_line]
             eq_refl).
  rewrite Ha, Hb. reflexivity.
Defined.

Lemma decoder_error_ends_stream_witness :
  let utils :=
    utils_rejecting record_one_alternative (Py.rstrip rejected_line) in
  VCFParser.__iter__ (parser_running false)
    ([full_line] ++ rejected_line :: [full_line])
  = ([record_one_alternative], Some Py.ValueError).
Proof.
  apply (decoder_error_ends_stream
           (utils := utils_rejecting record_one_alternative
                       (Py.rstrip rejected_line))
           (parser_running false) [full_line] rejected_line [full_line]
           [record_one_alternative] Py.ValueError).
  - reflexivity.
  - vm_compute. reflexivity.
  - vm_compute. reflexivity.
  - vm_compute. reflexivity.
Defined.

Lemma trailing_whitespace_ignored_witness :
  let utils := utils_decoding record_one_alternative in
  VCFParser.full
    (seven_columns ++ String VCFParser.tab (String VCFParser.tab newline))
  = VCFParser.full seven_columns /\
  VCFParser.__iter__ (parser_running false)
    [seven_columns ++ String VCFParser.tab (String VCFParser.tab newline)]
  = VCFParser.__iter__ (parser_running false) [seven_columns].
Proof.
  apply (trailing_whitespace_ignored
           (utils := utils_decoding record_one_alternative)
           (parser_running false) seven_columns
           (String VCFParser.tab (String VCFParser.tab newline)) []).
  repeat constructor.
Defined.

(** ** The constructor *)

Section MoreConstructor.

Import VCFParser.

Lemma string_of_list_ascii_append a b :
  string_of_list_ascii (a ++ b)%list
  = string_of_list_ascii a ++ string_of_list_ascii b.
Proof. induction a as [|c a IH]; simpl; [reflexivity|]. now rewrite IH. Qed.

Lemma append_empty s : s ++ "" = s.
Proof.
  induction s as [|c s IH]; [reflexivity|].
  change (String c (s ++ "") = String c s). now rewrite IH.
Qed.

(** [os.path.splitext] cuts its argument in two. *)
Lemma splitext_concat p root ext :
  OsPath.splitext p = (root, ext) -> p = root ++ ext.
Proof.
  unfold OsPath.splitext.
  match goal with
  | |- (if ?c then _ else _) = _ -> _ => destruct c
  end; intros H; injection H as <- <-.
  - rewrite <- string_of_list_ascii_append, firstn_skipn.
    now rewrite string_of_list_ascii_of_string.
  - now rewrite append_empty.
Qed.

Lemma rfind_from_app c a b : forall i found,
  OsPath.rfind_from c (a ++ b)%list i found
  = OsPath.rfind_from c b (i + Z.of_nat (length a))
      (OsPath.rfind_from c a i found).
Proof.
  induction a as [|d a IH]; intros i found; simpl.
  - f_equal. lia.
  - rewrite IH. f_equal. lia.
Qed.

Lemma rfind_from_absent c l : forall i found,
  Forall (fun d => Ascii.eqb c d = false) l ->
  OsPath.rfind_from c l i found = found.
Proof.
  induction l as [|d l IH]; intros i found H; simpl; [reflexivity|].
  inversion H as [|? ? Hd Hl]; subst. rewrite Hd. now apply IH.
Qed.

Lemma rfind_from_bounds c l : forall i found,
  -1 <= found < i ->
  -1 <= OsPath.rfind_from c l i found < i + Z.of_nat (length l).
Proof.
  induction l as [|d l IH]; intros i found H; simpl; [lia|].
  destruct (Ascii.eqb c d).
  - specialize (IH (i + 1) i). lia.
  - specialize (IH (i + 1) found). lia.
Qed.

Lemma rfind_bounds c l :
  -1 <= OsPath.rfind c l < Z.of_nat (length l).
Proof.
  unfold OsPath.rfind.
  pose proof (rfind_from_bounds c l 0 (-1)). lia.
Qed.

Lemma firstn_length_app {A} (a b : list A) :
  firstn (length a) (a ++ b)%list = a.
Proof. induction a; simpl; [destruct b; reflexivity|now f_equal]. Qed.

Lemma skipn_length_app {A} (a b : list A) :
  skipn (length a) (a ++ b)%list = b.
Proof. induction a; simpl; auto. Qed.

(** [os.path.splitext] gives the extension [.e], for an [e] without [.]
    and [/], to the paths that end in [.e] after a file name with a
    character other than [.], and to no other. *)
Lemma splitext_extension p root e :
  Forall (fun d => Ascii.eqb "." d = false) (list_ascii_of_string e) ->
  Forall (fun d => Ascii.eqb "/" d = false) (list_ascii_of_string e) ->
  OsPath.splitext p = (root, String "." e)
  <-> p = root ++ String "." e /\ named root = true.
Proof.
  intros Hdot Hsep.
  assert (Hsep' : Forall (fun d => Ascii.eqb "/" d = false)
                    (list_ascii_of_string (String "." e)))
    by (constructor; [reflexivity|assumption]).
  split.
  - intros H. pose proof (splitext_concat p root _ H) as Hp.
    split; [exact Hp|].
    unfold OsPath.splitext in H.
    set (l := list_ascii_of_string p) in *.
    set (sep := OsPath.rfind "/" l) in *.
    set (dot := OsPath.rfind "." l) in *.
    destruct (sep <? dot) eqn:Hlt; cbn [andb] in H; [|discriminate].
    match type of H with
    | (if ?c then _ else _) = _ => destruct c eqn:Hname
    end; [|discriminate].
    injection H as Hroot Hext.
    assert (Hl : l = (list_ascii_of_string root
                      ++ list_ascii_of_string (String "." e))%list).
    { unfold l. rewrite Hp at 1. apply list_ascii_of_string_append. }
    assert (Hsepr : OsPath.rfind "/" (list_ascii_of_string root) = sep).
    { unfold sep, OsPath.rfind. rewrite Hl, rfind_from_app.
      now rewrite (rfind_from_absent "/" _ _ _ Hsep'). }
    unfold named, file_name. rewrite Hsepr.
    rewrite <- Hroot, list_ascii_of_string_of_list_ascii.
    rewrite skipn_firstn_comm.
    pose proof (rfind_bounds "/" l). fold sep in H.
    apply Z.ltb_lt in Hlt.
    replace (Z.to_nat dot - Z.to_nat (sep + 1))%nat
      with (Z.to_nat (dot - (sep + 1))) by lia.
    exact Hname.
  - intros [-> Hnamed].
    unfold OsPath.splitext.
    rewrite list_ascii_of_string_append.
    set (r := list_ascii_of_string root).
    set (x := list_ascii_of_string (String "." e)).
    assert (Hsepv : OsPath.rfind "/" (r ++ x)%list = OsPath.rfind "/" r).
    { unfold OsPath.rfind. rewrite rfind_from_app.
      now rewrite (rfind_from_absent "/" x _ _ Hsep'). }
    assert (Hdotv : OsPath.rfind "." (r ++ x)%list = Z.of_nat (length r)).
    { unfold OsPath.rfind. rewrite rfind_from_app. unfold x. simpl.
      rewrite (rfind_from_absent "." _ _ _ Hdot). lia. }
    rewrite Hsepv, Hdotv.
    pose proof (rfind_bounds "/" r) as Hb.
    assert (Hlt : (OsPath.rfind "/" r <? Z.of_nat (length r)) = true)
      by (apply Z.ltb_lt; lia).
    rewrite Hlt. cbn [andb].
    rewrite Nat2Z.id.
    assert (Hname : firstn (Z.to_nat (Z.of_nat (length r)
                                      - (OsPath.rfind "/" r + 1)))
                      (skipn (Z.to_nat (OsPath.rfind "/" r + 1)) (r ++ x)%list)
                    = file_name root).
    { unfold file_name. fold r.
      replace (Z.to_nat (Z.of_nat (length r) - (OsPath.rfind "/" r + 1)))
        with (length r - Z.to_nat (OsPath.rfind "/" r + 1))%nat by lia.
      rewrite <- skipn_firstn_comm. now rewrite firstn_length_app. }
    rewrite Hname. unfold named in Hnamed. rewrite Hnamed.
    rewrite firstn_length_app, skipn_length_app.
    unfold r, x. now rewrite !string_of_list_ascii_of_string.
Qed.

(** X21.  Without [fsock], a path that is not empty is opened as a gzip
    file exactly when [os.path.splitext] gives it the extension [.gz], and
    as a text file exactly when it gives [.vcf]: when the path ends in the
    extension after a file name with a character other than [.].  Every
    other path makes the constructor raise [IOError]. *)
Theorem path_opened_iff_extension infile :
  infile <> "" ->
  (has_extension infile ".gz"
   <-> stream_of (Some infile) None = inr (GzipFile infile)) /\
  (has_extension infile ".vcf"
   <-> stream_of (Some infile) None = inr (TextFile infile)) /\
  (~ has_extension infile ".gz" -> ~ has_extension infile ".vcf" ->
   stream_of (Some infile) None = inl (IOError not_supported)).
Proof.
  intros Hne.
  assert (Hgz : forall root,
             OsPath.splitext infile = (root, ".gz")
             <-> infile = root ++ ".gz" /\ named root = true).
  { intros root. apply (splitext_extension infile root "gz");
      repeat constructor. }
  assert (Hvcf : forall root,
             OsPath.splitext infile = (root, ".vcf")
             <-> infile = root ++ ".vcf" /\ named root = true).
  { intros root. apply (splitext_extension infile root "vcf");
      repeat constructor. }
  unfold stream_of, given, has_extension.
  destruct infile as [|c infile]; [congruence|].
  change (default EmptyString (Some (String c infile)))
    with (String c infile).
  destruct (OsPath.splitext (String c infile)) as [root ext] eqn:E.
  destruct (String.eqb_spec ext ".gz") as [->|Hngz].
  - split; [|split].
    + split; [reflexivity|]. intros _. exists root. now apply Hgz.
    + split; [|discriminate]. intros (root' & Hr). apply Hvcf in Hr.
      congruence.
    + intros Hn. exfalso. apply Hn. exists root. now apply Hgz.
  - destruct (String.eqb_spec ext ".vcf") as [->|Hnvcf].
    + split; [|split].
      * split; [|discriminate]. intros (root' & Hr). apply Hgz in Hr.
        congruence.
      * split; [reflexivity|]. intros _. exists root. now apply Hvcf.
      * intros _ Hn. exfalso. apply Hn. exists root. now apply Hvcf.
    + split; [|split].
      * split; [|discriminate]. intros (root' & Hr). apply Hgz in Hr.
        congruence.
      * split; [|discriminate]. intros (root' & Hr). apply Hvcf in Hr.
        congruence.
      * reflexivity.
Qed.

Lemma path_opened_iff_extension_witness :
  ((has_extension "run.1/sample.vcf.gz" ".gz"
    <-> VCFParser.stream_of (Some "run.1/sample.vcf.gz") None
        = inr (VCFParser.GzipFile "run.1/sample.vcf.gz")) /\
   (has_extension "run.1/sample.vcf.gz" ".vcf"
    <-> VCFParser.stream_of (Some "run.1/sample.vcf.gz") None
        = inr (VCFParser.TextFile "run.1/sample.vcf.gz")) /\
   (~ has_extension "run.1/sample.vcf.gz" ".gz" ->
    ~ has_extension "run.1/sample.vcf.gz" ".vcf" ->
    VCFParser.stream_of (Some "run.1/sample.vcf.gz") None
    = inl (VCFParser.IOError VCFParser.not_supported))) /\
  VCFParser.stream_of (Some "run.1/sample.vcf.gz") None
  = inr (VCFParser.GzipFile "run.1/sample.vcf.gz") /\
  ~ has_extension "dir/.vcf" ".vcf" /\
  VCFParser.stream_of (Some "dir/.vcf") None
  = inl (VCFParser.IOError VCFParser.not_supported).
Proof.
  split; [|split; [|split]].
  - apply (path_opened_iff_extension "run.1/sample.vcf.gz"). discriminate.
  - apply (path_opened_iff_extension "run.1/sample.vcf.gz");
      [discriminate|].
    exists "run.1/sample.vcf". split; reflexivity.
  - intros H.
    apply (path_opened_iff_extension "dir/.vcf") in H; [|discriminate].
    vm_compute in H. discriminate.
  - vm_compute. reflexivity.
Defined.

Context {hp : Header} {utils : Utils}.

Lemma header_loop_unfold md x lines :
  header_loop md x lines
  = if Py.startswith "#" x then
      md' <- parse_line md x ;;
      match lines with
      | [] => Py.Ok (md', Py.rstrip EmptyString, [])
      | line :: rest => header_loop md' (Py.rstrip line) rest
      end
    else Py.Ok (md, x, lines).
Proof. destruct lines; reflexivity. Qed.

(** The loop of l.130-135 on a stream whose header lines are followed by a
    line that is none. *)
Lemma header_loop_data hdr data more :
  forall md x,
    Py.startswith "#" x = true ->
    Forall (fun l => header_line l = true) hdr ->
    header_line data = false ->
    header_loop md x (hdr ++ data :: more)%list
    = (m <- fed md (x :: map Py.rstrip hdr) ;;
       Py.Ok (m, Py.rstrip data, more)).
Proof.
  induction hdr as [|h hdr IH]; intros md x Hx Hall Hd;
    rewrite header_loop_unfold, Hx; cbn [fed map];
    destruct (parse_line md x) as [md'|e]; cbn [Py.bind app]; try reflexivity.
  - rewrite header_loop_unfold. unfold header_line in Hd. rewrite Hd.
    reflexivity.
  - inversion Hall as [|? ? Hh Hrest]; subst.
    apply (IH md' (Py.rstrip h) Hh Hrest Hd).
Qed.

(** What the constructor computes on such a stream. *)
Lemma read_header_data split hdr data more :
  Forall (fun l => header_line l = true) hdr ->
  header_line data = false ->
  read_header split (hdr ++ data :: more)
  = (m0 <- parse_meta_data HeaderParser_new (Py.rstrip (hd data hdr)) ;;
     m <- fed m0 (map Py.rstrip hdr) ;;
     Py.Ok {| self := {| split_variants := split;
                         metadata := header_view m;
                         individuals := header_individuals m;
                         header := header_header m;
                         vep_header := header_vep_columns m;
                         beginning := true |};
              next_line := Py.rstrip data;
              metadata_object := m;
              vcf := more |}).
Proof.
  intros Hall Hd. unfold read_header.
  destruct hdr as [|h hdr]; cbn [app Py.readline hd map].
  - destruct (parse_meta_data HeaderParser_new (Py.rstrip data)) as [m0|e];
      cbn [Py.bind fed]; [|reflexivity].
    rewrite header_loop_unfold. unfold header_line in Hd. rewrite Hd.
    reflexivity.
  - inversion Hall as [|? ? Hh Hrest]; subst.
    destruct (parse_meta_data HeaderParser_new (Py.rstrip h)) as [m0|e];
      cbn [Py.bind]; [|reflexivity].
    rewrite (header_loop_data hdr data more m0 (Py.rstrip h) Hh Hrest Hd).
    destruct (fed m0 (Py.rstrip h :: map Py.rstrip hdr)); reflexivity.
Qed.

(** X22.  The constructor on a stream of header lines followed by a line
    that is none. The first line of the stream goes to [parse_meta_data],
    whatever it is; then every header line, the first one again, goes to
    [parse_meta_data] when it starts with [##] and to [parse_header_line]
    otherwise, in the order of the stream. The first line that is no header
    line is kept, stripped, in [next_line]; the lines after it stay in the
    stream, and [beginning] is set. *)
Theorem header_lines_fed_in_order split hdr data more :
  Forall (fun l => header_line l = true) hdr ->
  header_line data = false ->
  read_header split (hdr ++ data :: more)
  = (m0 <- parse_meta_data HeaderParser_new (Py.rstrip (hd data hdr)) ;;
     m <- fed m0 (map Py.rstrip hdr) ;;
     Py.Ok {| self := {| split_variants := split;
                         metadata := header_view m;
                         individuals := header_individuals m;
                         header := header_header m;
                         vep_header := header_vep_columns m;
                         beginning := true |};
              next_line := Py.rstrip data;
              metadata_object := m;
              vcf := more |}).
Proof. apply read_header_data. Qed.

(** X23.  Constructing a parser on a stream and iterating over it never
    yields the first line that is no header line: the constructor has taken
    it off the stream. When no line follows it the iteration ends without a
    record and without an exception; when one does, the iteration ends at
    that line with the [NameError] of l.150, without a record. *)
Theorem first_data_line_never_yielded split hdr data more :
  Forall (fun l => header_line l = true) hdr ->
  header_line data = false ->
  Py.is_ok (read_header split (hdr ++ data :: more)) = true ->
  parse split (hdr ++ data :: more)
  = ([], match more with
         | [] => None
         | _ :: _ => Some (Py.NameError "next_line")
         end).
Proof.
  intros Hall Hd Hok. unfold parse.
  rewrite (read_header_data split hdr data more Hall Hd) in *.
  destruct (parse_meta_data HeaderParser_new (Py.rstrip (hd data hdr)))
    as [m0|e]; cbn [Py.bind] in *; [|discriminate].
  destruct (fed m0 (map Py.rstrip hdr)) as [m|e]; cbn [Py.bind] in *;
    [|discriminate].
  destruct more; reflexivity.
Qed.

End MoreConstructor.

Lemma header_lines_fed_in_order_witness :
  let hp := recording_header in
  match VCFParser.read_header false
          ([meta_line; column_line] ++ full_line :: [short_line]) with
  | Py.Ok r =>
      VCFParser.metadata_object r
      = [("parse_meta_data", "##fileformat=VCFv4.1");
         ("parse_meta_data", "##fileformat=VCFv4.1");
         ("parse_header_line", "#CHROM")] /\
      VCFParser.next_line r = Py.rstrip full_line /\
      VCFParser.vcf r = [short_line]
  | Py.Raise _ => False
  end.
Proof.
  cbv zeta.
  rewrite (header_lines_fed_in_order (hp := recording_header) false
             [meta_line; column_line] full_line [short_line]).
  - vm_compute. repeat split.
  - repeat constructor.
  - vm_compute. reflexivity.
Defined.

Lemma first_data_line_never_yielded_witness :
  let hp := recording_header in
  let utils := utils_decoding record_one_alternative in
  VCFParser.parse false [meta_line; column_line; full_line] = ([], None) /\
  VCFParser.parse false [meta_line; column_line; full_line; full_line]
  = ([], Some (Py.NameError "next_line")).
Proof.
  split.
  - apply (first_data_line_never_yielded (hp := recording_header)
             (utils := utils_decoding record_one_alternative)
             false [meta_line; column_line] full_line []).
    + repeat constructor.
    + vm_compute. reflexivity.
    + vm_compute. reflexivity.
  - apply (first_data_line_never_yielded (hp := recording_header)
             (utils := utils_decoding record_one_alternative)
             false [meta_line; column_line] full_line [full_line]).
    + repeat constructor.
    + vm_compute. reflexivity.
    + vm_compute. reflexivity.
Defined.
